(** * InvestmentSummary: series normalisation, weighted total and holdings

    A shallow embedding of the computational core of the dashboard:
    - [normalizeData] of [src/App.tsx] (rebasing every price series to 100
      at its first valid value and adding the shares-weighted [TOTAL]);
    - [handleSharesChange], [pieData], [totalValue] and the table row of
      [src/components/PortfolioManager.tsx].

    JavaScript objects used as dictionaries are finite maps from property
    names to values; arrays are lists; a call either completes normally or
    throws. *)

From Stdlib Require Import QArith Qreduction Qminmax.
From Stdlib Require Import Qround Ascii Lqa.
From stdpp Require Import gmap strings list fin_maps.

(** ** JavaScript numbers, values and objects *)

Module JS.

(** The Number type.  The special values follow IEEE 754 as JavaScript
    exposes them ([NaN], [+Infinity], [-Infinity]); the finite values are
    exact rationals kept in lowest terms, so rounding, overflow and the
    sign of zero are not represented (zero is [+0]). *)
Inductive number : Type :=
  | NaN
  | PInf
  | NInf
  | Fin (q : Q).

Definition is_zero (q : Q) : bool := (Qnum q =? 0)%Z.
Definition is_pos (q : Q) : bool := (0 <? Qnum q)%Z.
Definition is_neg (q : Q) : bool := (Qnum q <? 0)%Z.

Definition zero : number := Fin 0.
Definition one : number := Fin 1.
Definition hundred : number := Fin 100.

(** [x + y] *)
Definition add (x y : number) : number :=
  match x, y with
  | NaN, _ | _, NaN => NaN
  | PInf, NInf | NInf, PInf => NaN
  | PInf, _ | _, PInf => PInf
  | NInf, _ | _, NInf => NInf
  | Fin a, Fin b => Fin (Qred (a + b))
  end.

Definition inf_of_sign (positive : bool) : number :=
  if positive then PInf else NInf.

(** [x * y] *)
Definition mul (x y : number) : number :=
  match x, y with
  | NaN, _ | _, NaN => NaN
  | PInf, PInf | NInf, NInf => PInf
  | PInf, NInf | NInf, PInf => NInf
  | PInf, Fin b | Fin b, PInf =>
      if is_zero b then NaN else inf_of_sign (is_pos b)
  | NInf, Fin b | Fin b, NInf =>
      if is_zero b then NaN else inf_of_sign (is_neg b)
  | Fin a, Fin b => Fin (Qred (a * b))
  end.

(** [x / y] *)
Definition div (x y : number) : number :=
  match x, y with
  | NaN, _ | _, NaN => NaN
  | (PInf | NInf), (PInf | NInf) => NaN
  | PInf, Fin b => inf_of_sign (negb (is_neg b))
  | NInf, Fin b => inf_of_sign (is_neg b)
  | Fin _, (PInf | NInf) => zero
  | Fin a, Fin b =>
      if is_zero b then
        if is_zero a then NaN else inf_of_sign (is_pos a)
      else Fin (Qred (a / b))
  end.

(** [x > y] *)
Definition gt (x y : number) : bool :=
  match x, y with
  | NaN, _ | _, NaN => false
  | PInf, PInf => false
  | PInf, _ => true
  | _, PInf => false
  | NInf, _ => false
  | Fin _, NInf => true
  | Fin a, Fin b => negb (Qle_bool a b)
  end.

(** [Math.max(x, y)] *)
Definition Math_max (x y : number) : number :=
  match x, y with
  | NaN, _ | _, NaN => NaN
  | _, _ => if gt y x then y else x
  end.

(** Language values that occur in the program: [undefined], [null],
    numbers and strings. *)
Inductive value : Type :=
  | VUndefined
  | VNull
  | VNumber (n : number)
  | VString (s : string).

(** [v !== undefined] and [v !== null] *)
Definition not_undefined (v : value) : bool :=
  match v with VUndefined => false | _ => true end.

Definition not_null (v : value) : bool :=
  match v with VNull => false | _ => true end.

(** An object used as a dictionary; [o[k]] is [undefined] for a missing
    property.  Only the object's own properties are represented, not the
    ones inherited from [Object.prototype]. *)
Definition get (o : gmap string value) (k : string) : value :=
  default VUndefined (o !! k).

(** [Object.keys(o)].  The enumeration order of the properties plays no
    role in the program: every loop over keys writes to the property it
    visits only. *)
Definition Object_keys (o : gmap string value) : list string :=
  (map_to_list o).*1.

(** Completion of a call: a returned value or a thrown exception. *)
Inductive exn : Type :=
  | TypeError.

Inductive completion (A : Type) : Type :=
  | Normal (a : A)
  | Throw (e : exn).

Arguments Normal {A} a.
Arguments Throw {A} e.

Section Conversions.

(** The numeric reading of a string ([StringToNumber] of the language
    standard) is left abstract. *)
Variable StringToNumber : string -> number.

(** [Number(v)], also applied implicitly by the arithmetic operators. *)
Definition ToNumber (v : value) : number :=
  match v with
  | VUndefined => NaN
  | VNull => zero
  | VNumber n => n
  | VString s => StringToNumber s
  end.

(** Truthiness, as tested by [a || b] and [c ? a : b]. *)
Definition ToBoolean (v : value) : bool :=
  match v with
  | VUndefined | VNull => false
  | VNumber NaN => false
  | VNumber (Fin q) => negb (is_zero q)
  | VNumber _ => true
  | VString s => negb (String.eqb s "")
  end.

(** [a || b] *)
Definition or_else (a b : value) : value :=
  if ToBoolean a then a else b.

End Conversions.

End JS.

Import JS.

(** ** Portfolio ([src/types/portfolio.ts]) *)

Record PortfolioHolding : Type := {
  symbol : string;
  shares : number;
  currentPrice : option number
}.

Record Portfolio : Type := {
  holdings : list PortfolioHolding;
  lastUpdated : string
}.

(** ** [src/App.tsx] *)

Module App.

Section NormalizeData.

Variable StringToNumber : string -> number.

Abbreviation ToNumber := (JS.ToNumber StringToNumber).

(** [portfolio.holdings.filter((h) => h.symbol !== "CASH")] *)
Definition nonCash (portfolio : Portfolio) : list PortfolioHolding :=
  filter (λ h, symbol h ≠ "CASH") (holdings portfolio).

(** [.reduce((sum, h) => sum + h.shares, 0)] over the non-CASH holdings *)
Definition totalInvestment (portfolio : Portfolio) : number :=
  foldl (λ sum h, add sum (shares h)) zero (nonCash portfolio).

(** [point[key] !== null && point[key] !== undefined] *)
Definition valid (v : value) : bool := not_null v && not_undefined v.

(** The inner loop [for (const point of data)] with its [break]: the
    first point holding a valid value for [key] sets [baseValues[key]]. *)
Fixpoint firstValid (key : string) (data : list (gmap string value))
    (baseValues : gmap string value) : gmap string value :=
  match data with
  | [] => baseValues
  | point :: rest =>
      if valid (get point key)
      then <[key := VNumber (ToNumber (get point key))]> baseValues
      else firstValid key rest baseValues
  end.

(** [Object.keys(data[0]).forEach(...)], given [data[0]] *)
Definition baseValuesFrom (first : gmap string value)
    (data : list (gmap string value)) : gmap string value :=
  foldl (λ baseValues key,
           if bool_decide (key ≠ "date")
           then firstValid key data baseValues
           else baseValues)
        ∅ (Object_keys first).

(** [{ date: point.date }] followed by the loop over [Object.keys(point)] *)
Definition normalizedValues (baseValues point : gmap string value)
    : gmap string value :=
  foldl (λ normalizedPoint key,
           if bool_decide (key ≠ "date") && valid (get point key)
           then <[key := VNumber
                           (mul (div (ToNumber (get point key))
                                     (ToNumber (get baseValues key)))
                                hundred)]> normalizedPoint
           else normalizedPoint)
        {["date" := get point "date"]} (Object_keys point).

(** The reduction computing [weightedTotal] *)
Definition weightedTotal (totalInvestment : number) (portfolio : Portfolio)
    (normalizedPoint : gmap string value) : number :=
  foldl (λ sum holding,
           let symbol := symbol holding in
           if not_undefined (get normalizedPoint symbol)
           then
             let weight := div (shares holding) totalInvestment in
             add sum (mul (ToNumber (get normalizedPoint symbol)) weight)
           else sum)
        zero (nonCash portfolio).

(** The callback of [data.map] *)
Definition normalizePoint (totalInvestment : number)
    (baseValues : gmap string value) (portfolio : Portfolio)
    (point : gmap string value) : gmap string value :=
  let normalizedPoint := normalizedValues baseValues point in
  <["TOTAL" := VNumber (weightedTotal totalInvestment portfolio
                          normalizedPoint)]> normalizedPoint.

(** [normalizeData(data, portfolio)].  [Object.keys(data[0])] throws a
    [TypeError] when [data[0]] is [undefined]. *)
Definition normalizeData (data : list (gmap string value))
    (portfolio : Portfolio) : completion (list (gmap string value)) :=
  let totalInvestment := totalInvestment portfolio in
  match head data with
  | None => Throw TypeError
  | Some first =>
      let baseValues := baseValuesFrom first data in
      Normal (map (normalizePoint totalInvestment baseValues portfolio)
                  data)
  end.

End NormalizeData.

End App.

(** ** [src/components/PortfolioManager.tsx] *)

Module PortfolioManager.

(** The state update of [handleSharesChange(symbol, shares)], applied to
    the previous portfolio; [now] stands for [new Date().toISOString()].
    The updater contains no [throw]: it always completes normally. *)
Definition handleSharesChange (now : string) (symbol0 : string)
    (shares0 : number) (prev : Portfolio) : completion Portfolio :=
  Normal
    {| holdings :=
         map (λ holding,
                if bool_decide (symbol holding = symbol0)
                then {| symbol := symbol holding;
                        shares := Math_max zero shares0;
                        currentPrice := currentPrice holding |}
                else holding)
             (holdings prev);
       lastUpdated := now |}.

(** An entry of [pieData] *)
Record PieItem : Type := {
  name : string;
  pieValue : number
}.

(** A row of the holdings table *)
Record HoldingRow : Type := {
  rowPrice : value;
  rowValue : number;
  rowWeight : number
}.

Section Valuation.

Variable StringToNumber : string -> number.
Variable currentPrices : gmap string value.

Abbreviation ToNumber := (JS.ToNumber StringToNumber).

(** [currentPrices[holding.symbol + ".AX"] || 0] *)
Definition priceOrZero (holding : PortfolioHolding) : value :=
  or_else (get currentPrices (symbol holding +:+ ".AX")) (VNumber zero).

(** [portfolio.holdings.map(...).filter((item) => item.value > 0)] *)
Definition pieData (portfolio : Portfolio) : list PieItem :=
  filter (λ item, gt (pieValue item) zero = true)
    (map (λ holding,
            {| name := symbol holding;
               pieValue :=
                 if bool_decide (symbol holding = "CASH")
                 then shares holding
                 else mul (shares holding) (ToNumber (priceOrZero holding)) |})
         (holdings portfolio)).

(** [pieData.reduce((sum, item) => sum + item.value, 0)] *)
Definition totalValue (portfolio : Portfolio) : number :=
  foldl (λ sum item, add sum (pieValue item)) zero (pieData portfolio).

(** The body of [portfolio.holdings.map((holding) => ...)] in the table:
    [currentPrice], [value] and [weight] of one holding. *)
Definition holdingRow (totalValue : number) (holding : PortfolioHolding)
    : HoldingRow :=
  let isCash := bool_decide (symbol holding = "CASH") in
  let currentPrice := if isCash then VNumber one else priceOrZero holding in
  let value := mul (shares holding) (ToNumber currentPrice) in
  let weight :=
    if ToBoolean (VNumber totalValue)
    then mul (div value totalValue) hundred
    else zero in
  {| rowPrice := currentPrice; rowValue := value; rowWeight := weight |}.

(** The rows of the table for a portfolio *)
Definition holdingRows (portfolio : Portfolio) : list HoldingRow :=
  map (holdingRow (totalValue portfolio)) (holdings portfolio).

End Valuation.

End PortfolioManager.

(** ** Further built-ins of the language *)

Module JSLib.

(** [Math.min(x, y)] *)
Definition Math_min (x y : number) : number :=
  match x, y with
  | NaN, _ | _, NaN => NaN
  | _, _ => if gt x y then y else x
  end.

(** [Math.floor(x)] and [Math.ceil(x)] *)
Definition Math_floor (x : number) : number :=
  match x with
  | Fin q => Fin (inject_Z (Qfloor q))
  | _ => x
  end.

Definition Math_ceil (x : number) : number :=
  match x with
  | Fin q => Fin (inject_Z (Qceiling q))
  | _ => x
  end.

(** [xs[i]] on an array: [undefined] out of range. *)
Definition at_index (xs : list value) (i : nat) : value :=
  default VUndefined (xs !! i).

(** [s.replace(pattern, replacement)] with a string pattern: the first
    occurrence of the pattern, if any, is replaced. *)
Fixpoint String_replace (pattern replacement s : string) : string :=
  if String.prefix pattern s
  then replacement +:+
       String.substring (String.length pattern)
         (String.length s - String.length pattern) s
  else match s with
       | EmptyString => EmptyString
       | String c rest => String c (String_replace pattern replacement rest)
       end.

(** Sequencing of calls that may throw. *)
Global Instance completion_bind : MBind completion :=
  λ A B f c, match c with Normal a => f a | Throw e => Throw e end.

End JSLib.

Import JSLib.

(** ** [backend/server.js] and [src/services/stockService.ts] *)

Module Server.

(** An element of the response, [StockData] on the client. *)
Record StockData : Type := {
  timestamp : number;
  close : value
}.

(** [timestamps.map((timestamp, index) =>
      ({ timestamp, close: closePrices[index] || null }))] *)
Definition stockData (timestamps : list number) (closePrices : list value)
    : list StockData :=
  imap (λ index timestamp,
          {| timestamp := timestamp;
             close := or_else (at_index closePrices index) VNull |})
       timestamps.

(** [const interval = range === "1m" ? "1d" : "1wk"] of [fetchStockData] *)
Definition interval (range : string) : string :=
  if bool_decide (range = "1m") then "1d" else "1wk".

End Server.

Import Server.

(** ** The component [StockCharts] of [src/App.tsx] *)

Module StockCharts.

(** The configured instruments. *)
Definition ETF_LIST : list string :=
  ["VAS.AX"; "VGS.AX"; "VGAD.AX"; "VAE.AX"; "VGE.AX"; "IVE.AX"; "DJRE.AX";
   "GOLD.AX"].

(** The part of a query result that the component reads. *)
Record Query : Type := {
  data : option (list StockData);
  isLoading : bool;
  isError : bool
}.

(** The initial portfolio when nothing is saved: one holding per
    configured instrument, named without [.AX], then [CASH], all at zero
    ([now] stands for [new Date().toISOString()]).  The same expression
    initialises the state of [PortfolioManager]. *)
Definition initialPortfolio (etfList : list string) (now : string)
    : Portfolio :=
  {| holdings :=
       map (λ symbol, {| symbol := String_replace ".AX" "" symbol;
                         shares := zero;
                         currentPrice := None |}) etfList
       ++ [ {| symbol := "CASH"; shares := zero; currentPrice := None |} ];
     lastUpdated := now |}.

(** The [y] domain accumulated over the normalized chart. *)
Record Domain : Type := {
  min : number;
  max : number
}.

(** What the component renders. *)
Inductive View : Type :=
  | LoadingView
  | ErrorView
  | ChartsView (chartData : option (list (gmap string value)))
               (normalizedChartData : list (gmap string value))
               (currentPrices : gmap string value)
               (yMin yMax : number).

Section Render.

(** [format(fromUnixTime(timestamp), "MMM yyyy")] of [date-fns] is left
    abstract, like the numeric reading of strings. *)
Variable StringToNumber : string -> number.
Variable formatDate : number -> string.

(** [queries] pairs every element of the instrument list with the result
    of the query created for it: [useQueries] returns one result per
    element of [ETF_LIST.map(...)], in the same order, so [queries[i]]
    always goes with [ETF_LIST[i]]. *)

(** The callback of [queries[0].data?.map((item, index) => ...)].  The test
    [query.data?.[index]] holds when the data has an element at the index
    (an element is an object, hence truthy). *)
Definition dataPoint (queries : list (string * Query)) (item : StockData)
    (index : nat) : gmap string value :=
  foldl (λ dataPoint '(etf, query),
           match data query ≫= (λ d, d !! index) with
           | Some entry =>
               let symbol := String_replace ".AX" "" etf in
               <[symbol := close entry]> dataPoint
           | None => dataPoint
           end)
        {["date" := VString (formatDate (timestamp item))]} queries.

(** [chartData]: [undefined] when the first query has no data; reading
    [queries[0].data] throws when there is no query at all. *)
Definition chartData (queries : list (string * Query))
    : completion (option (list (gmap string value))) :=
  match queries with
  | [] => Throw TypeError
  | (_, first) :: _ =>
      Normal (imap (λ index item, dataPoint queries item index)
                <$> data first)
  end.

(** [currentPrices]: the last close of every query that has data. *)
Definition currentPrices (queries : list (string * Query))
    : gmap string value :=
  foldl (λ currentPrices '(etf, query),
           match data query with
           | Some d =>
               if bool_decide (length d ≠ 0%nat)
               then match d !! (length d - 1)%nat with
                    | Some entry => <[etf := close entry]> currentPrices
                    | None => currentPrices
                    end
               else currentPrices
           | None => currentPrices
           end)
        ∅ queries.

(** The inner loop of [yDomain] over [Object.entries(point)] *)
Definition yDomainPoint (acc : Domain) (point : gmap string value) : Domain :=
  foldl (λ acc '(key, value),
           match value with
           | VNumber n =>
               if bool_decide (key ≠ "date")
               then {| min := Math_min (min acc) n;
                       max := Math_max (max acc) n |}
               else acc
           | _ => acc
           end)
        acc (map_to_list point).

(** [normalizedChartData.reduce(..., { min: Infinity, max: -Infinity })] *)
Definition yDomain (normalizedChartData : list (gmap string value))
    : Domain :=
  foldl yDomainPoint {| min := PInf; max := NInf |} normalizedChartData.

(** The body of [StockCharts] up to the values handed to the charts. *)
Definition render (queries : list (string * Query)) (portfolio : Portfolio)
    : completion View :=
  if existsb (λ q, isLoading q.2) queries then Normal LoadingView
  else if existsb (λ q, isError q.2) queries then Normal ErrorView
  else
    chartData ← chartData queries;
    normalizedChartData ←
      App.normalizeData StringToNumber (default [] chartData) portfolio;
    let yDomain := yDomain normalizedChartData in
    Normal (ChartsView chartData normalizedChartData
              (currentPrices queries)
              (Math_floor (min yDomain)) (Math_ceil (max yDomain))).

End Render.

End StockCharts.

Module StockChartsSpec.

Import StockCharts.

(** The loop of [dataPoint] over the queries, from any accumulator. *)
Definition fill (index : nat) (acc : gmap string value)
    (queries : list (string * Query)) : gmap string value :=
  foldl (λ dataPoint '(etf, query),
           match data query ≫= (λ d, d !! index) with
           | Some entry =>
               let symbol := String_replace ".AX" "" etf in
               <[symbol := close entry]> dataPoint
           | None => dataPoint
           end) acc queries.

(** The chart key of an instrument: its name without [.AX]. *)
Definition symbolOf (etf : string) : string := String_replace ".AX" "" etf.

(** [query.data?.[index]] *)
Definition entryAt (query : Query) (index : nat) : option StockData :=
  data query ≫= (λ d, d !! index).

(** The last element of the data of a query, if it has any. *)
Definition lastEntry (query : Query) : option StockData :=
  data query ≫= last.

(** A close as the server sends it and JSON carries it: [null] or a finite
    non-zero number. *)
Definition ServerClose (v : value) : Prop :=
  v = VNull ∨ ∃ q, v = VNumber (Fin q) ∧ is_zero q = false.

(** Every close of every query is such a value. *)
Definition ServerQueries (queries : list (string * Query)) : Prop :=
  ∀ etf query d entry,
    (etf, query) ∈ queries → data query = Some d → entry ∈ d →
    ServerClose (close entry).

(** The order of the numbers other than [NaN]. *)
Definition ext_le (x y : number) : Prop :=
  match x, y with
  | NaN, _ | _, NaN => False
  | NInf, _ | _, PInf => True
  | Fin a, Fin b => (a <= b)%Q
  | _, _ => False
  end.

(** The inner loop of [yDomain] over any list of entries. *)
Definition yDomainEntries (acc : Domain) (entries : list (string * value))
    : Domain :=
  foldl (λ acc '(key, value),
           match value with
           | VNumber n =>
               if bool_decide (key ≠ "date")
               then {| min := Math_min (min acc) n;
                       max := Math_max (max acc) n |}
               else acc
           | _ => acc
           end)
        acc entries.

(** Both bounds are [NaN]. *)
Definition poisoned (acc : Domain) : Prop := min acc = NaN ∧ max acc = NaN.

(** A lower bound in the making: [+Infinity] or finite; an upper bound in
    the making: [-Infinity] or finite. *)
Definition lowerOK (m : number) : Prop := m = PInf ∨ ∃ q, m = Fin q.
Definition upperOK (m : number) : Prop := m = NInf ∨ ∃ q, m = Fin q.

(** Every number among the entries, the date apart, is finite. *)
Definition finiteEntries (entries : list (string * value)) : Prop :=
  ∀ k n, (k, VNumber n) ∈ entries → k ≠ "date" → ∃ q, n = Fin q.

(** Every number of the chart, the dates apart, is finite. *)
Definition finiteData (data : list (gmap string value)) : Prop :=
  ∀ p k n, p ∈ data → p !! k = Some (VNumber n) → k ≠ "date" →
           ∃ q, n = Fin q.

(** A string without the character [.] *)
Fixpoint dotFree (s : string) : Prop :=
  match s with
  | EmptyString => True
  | String c rest => c ≠ "."%char ∧ dotFree rest
  end.

(** The sum of a list of rationals. *)
Definition qsum (l : list Q) : Q := foldr Qplus 0%Q l.

End StockChartsSpec.

Module AppSpec.

(** The value at which the inner loop of the base scan stops, if any. *)
Fixpoint findValid (key : string) (data : list (gmap string value))
    : option value :=
  match data with
  | [] => None
  | point :: rest =>
      if App.valid (get point key) then Some (get point key)
      else findValid key rest
  end.

(** [i] is the first index of [data] whose point holds a valid (neither
    [null] nor [undefined]) value for [key], and [v] is that value. *)
Definition FirstValidAt (key : string) (data : list (gmap string value))
    (i : nat) (v : value) : Prop :=
  (∃ point, data !! i = Some point ∧ get point key = v) ∧
  App.valid v = true ∧
  ∀ j point, (j < i)%nat → data !! j = Some point →
             App.valid (get point key) = false.


End AppSpec.

Module PortfolioManagerSpec.

(** A total that is zero, a positive finite number or [+Infinity]. *)
Definition nonneg (n : number) : Prop :=
  match n with
  | Fin q => (0 <= q)%Q
  | PInf => True
  | _ => False
  end.

(** The value of a holding as [pieData] computes it. *)
Definition holdingValue (StringToNumber : string → number)
    (currentPrices : gmap string value) (h : PortfolioHolding) : number :=
  if bool_decide (symbol h = "CASH") then shares h
  else mul (shares h)
           (ToNumber StringToNumber
              (PortfolioManager.priceOrZero currentPrices h)).

(** The number formatted by the label of a pie slice,
    [(value / totalValue) * 100], before [toFixed(1)]. *)
Definition piePercent (totalValue : number) (item : PortfolioManager.PieItem)
    : number :=
  mul (div (PortfolioManager.pieValue item) totalValue) hundred.

(** A holding with a finite, non-negative number of shares. *)
Definition NonNegShares (h : PortfolioHolding) : Prop :=
  ∃ q, shares h = Fin q ∧ (0 <= q)%Q.

End PortfolioManagerSpec.

(** ** Concrete inputs *)

Module Inputs.

(** A string never read as a number in the inputs below. *)
Definition noNumber (s : string) : number := NaN.

Definition holding (sym : string) (n : Q) : PortfolioHolding :=
  {| symbol := sym; shares := Fin n; currentPrice := None |}.

(** A chart point with a date label and numeric or [null] entries. *)
Definition chartPoint (label : string) (entries : list (string * value))
    : gmap string value :=
  <["date" := VString label]> (list_to_map entries).

Definition num (q : Q) : value := VNumber (Fin q).

(** The default portfolio created on first load: every configured
    instrument (without its [.AX] suffix) and [CASH], all at zero. *)
Definition defaultPortfolio : Portfolio :=
  {| holdings :=
       [holding "VAS" 0; holding "VGS" 0; holding "VGAD" 0; holding "VAE" 0;
        holding "VGE" 0; holding "IVE" 0; holding "DJRE" 0; holding "GOLD" 0;
        holding "CASH" 0];
     lastUpdated := "2024-01-01T00:00:00.000Z" |}.

(** One share of [A], one of [B], no cash. *)
Definition portfolioAB : Portfolio :=
  {| holdings := [holding "A" 1; holding "B" 1; holding "CASH" 0];
     lastUpdated := "2024-01-01T00:00:00.000Z" |}.

(** Series A = 10, 20 and B = 50, 25. *)
Definition janAB : gmap string value :=
  chartPoint "Jan 2024" [("A", num 10); ("B", num 50)].
Definition febAB : gmap string value :=
  chartPoint "Feb 2024" [("A", num 20); ("B", num 25)].
Definition dataAB : list (gmap string value) := [janAB; febAB].

(** One point of [VAS] for the default portfolio. *)
Definition janVAS : gmap string value :=
  chartPoint "Jan 2024" [("VAS", num 10)].
Definition dataVAS : list (gmap string value) := [janVAS].

(** Series A starts at zero. *)
Definition janZeroA : gmap string value :=
  chartPoint "Jan 2024" [("A", num 0); ("B", num 50)].
Definition febFiveA : gmap string value :=
  chartPoint "Feb 2024" [("A", num 5); ("B", num 25)].
Definition dataZeroBase : list (gmap string value) := [janZeroA; febFiveA].

(** Series A has no entry in the first point and a price later. *)
Definition janB : gmap string value := chartPoint "Jan 2024" [("B", num 50)].
Definition dataLateKey : list (gmap string value) := [janB; febAB].

(** Series A is [null] throughout. *)
Definition janNullA : gmap string value :=
  chartPoint "Jan 2024" [("A", VNull); ("B", num 50)].
Definition febNullA : gmap string value :=
  chartPoint "Feb 2024" [("A", VNull); ("B", num 25)].
Definition dataNullA : list (gmap string value) := [janNullA; febNullA].

(** One share of [A] priced at 50, and 50 of cash. *)
Definition portfolioACash : Portfolio :=
  {| holdings := [holding "A" 1; holding "CASH" 50];
     lastUpdated := "2024-01-01T00:00:00.000Z" |}.

Definition pricesA : gmap string value := {["A.AX" := num 50]}.

(** Two shares of [B], whose price is unknown, next to [portfolioACash]. *)
Definition portfolioABCash : Portfolio :=
  {| holdings := [holding "A" 1; holding "B" 2; holding "CASH" 50];
     lastUpdated := "2024-01-01T00:00:00.000Z" |}.

(** The time of an update. *)
Definition now : string := "2024-02-01T09:30:00.000Z".

End Inputs.

(** ** Concrete inputs for the server, the component and the table *)

Module MoreInputs.

Import StockCharts Inputs.

(** Every date is rendered the same way. *)
Definition sameLabel (t : number) : string := "Jan 2024".

(** Three timestamps with the closes 10, 0 and [null]. *)
Definition threeTimestamps : list number := [Fin 1; Fin 2; Fin 3].
Definition closesWithZero : list value := [num 10; num 0; VNull].

(** The data of two queries: three closes for VAS, two for VGS. *)
Definition dataVASq : list StockData :=
  stockData threeTimestamps [num 10; VNull; num 12].
Definition dataVGSq : list StockData :=
  stockData [Fin 1; Fin 2] [num 50; num 25].

Definition queryOf (d : option (list StockData)) : Query :=
  {| data := d; isLoading := false; isError := false |}.

Definition twoQueries : list (string * Query) :=
  [("VAS.AX", queryOf (Some dataVASq)); ("VGS.AX", queryOf (Some dataVGSq))].

(** The chart points built from [twoQueries]. *)
Definition chartVASVGS : list (gmap string value) :=
  imap (λ index item, dataPoint sameLabel twoQueries item index) dataVASq.

(** The first and the third element of the data of VAS and the chart
    points built from them. *)
Definition firstItem : StockData := {| timestamp := Fin 1; close := num 10 |}.
Definition thirdItem : StockData := {| timestamp := Fin 3; close := num 12 |}.
Definition firstPoint : gmap string value :=
  dataPoint sameLabel twoQueries firstItem 0.
Definition thirdPoint : gmap string value :=
  dataPoint sameLabel twoQueries thirdItem 2.

(** The first query has no element although the second one has data. *)
Definition firstQueryEmpty : list (string * Query) :=
  [("VAS.AX", queryOf (Some [])); ("VGS.AX", queryOf (Some dataVGSq))].

(** A normalized point whose [TOTAL] is [NaN] and one with finite numbers
    only. *)
Definition pointWithNaN : gmap string value :=
  <["TOTAL" := VNumber NaN]> (chartPoint "Jan 2024" [("VAS", num 100)]).
Definition pointFinite : gmap string value :=
  <["TOTAL" := num (251 # 2)]> (chartPoint "Jan 2024" [("VAS", num (199 # 2))]).

(** One share of A and three of B. *)
Definition portfolioA1B3 : Portfolio :=
  {| holdings := [holding "A" 1; holding "B" 3; holding "CASH" 0];
     lastUpdated := "2024-01-01T00:00:00.000Z" |}.

(** Prices for A and B. *)
Definition pricesAB : gmap string value :=
  {["A.AX" := num 50; "B.AX" := num 10]}.

End MoreInputs.

(** ** Properties of the number operations *)

Module NumberFacts.

Lemma add_NaN_r x : add x NaN = NaN.
Proof. by destruct x. Qed.

Lemma add_NaN_l x : add NaN x = NaN.
Proof. done. Qed.

Lemma mul_NaN_l x : mul NaN x = NaN.
Proof. done. Qed.

Lemma mul_NaN_r x : mul x NaN = NaN.
Proof. by destruct x. Qed.

Lemma div_NaN_r x : div x NaN = NaN.
Proof. by destruct x. Qed.

Lemma div_zero_zero : div zero zero = NaN.
Proof. done. Qed.

Lemma is_zero_Qeq q : is_zero q = true ↔ (q == 0)%Q.
Proof.
  unfold is_zero, Qeq. destruct q as [n d]; simpl.
  rewrite Z.eqb_eq. lia.
Qed.

Lemma is_zero_false q : is_zero q = false ↔ ¬ (q == 0)%Q.
Proof.
  rewrite <- is_zero_Qeq. destruct (is_zero q); split; congruence.
Qed.

(** Two equal rationals have the same lowest terms. *)
Lemma Fin_Qred_eq a b : (a == b)%Q → Fin (Qred a) = Fin (Qred b).
Proof. intros H. f_equal. by apply Qred_complete. Qed.

(** Rebasing a finite non-zero value to itself gives exactly 100. *)
Lemma rebase_self q :
  is_zero q = false → mul (div (Fin q) (Fin q)) hundred = Fin 100.
Proof.
  intros Hq. unfold div. rewrite Hq. unfold mul, hundred.
  change (Fin 100) with (Fin (Qred 100)). apply Fin_Qred_eq.
  rewrite Qred_correct. apply is_zero_false in Hq. by field.
Qed.

(** Rebasing on a finite non-zero base stays finite and can be undone. *)
Lemma rebase_finite v b :
  is_zero b = false →
  ∃ n, mul (div (Fin v) (Fin b)) hundred = Fin n ∧ (n * b / 100 == v)%Q.
Proof.
  intros Hb. unfold div. rewrite Hb. unfold mul, hundred.
  eexists; split; [done|].
  rewrite !Qred_correct. apply is_zero_false in Hb. by field.
Qed.

(** Rebasing on a zero base never gives a finite value. *)
Lemma rebase_zero_base v b :
  is_zero b = true →
  mul (div (Fin v) (Fin b)) hundred =
    if is_zero v then NaN else inf_of_sign (is_pos v).
Proof.
  intros Hb. unfold div. rewrite Hb.
  destruct (is_zero v); [done|]. by destruct (is_pos v).
Qed.

(** Dividing by a zero base never gives a finite value, whatever the
    dividend. *)
Lemma rebase_zero_base_not_finite x b q :
  is_zero b = true → mul (div x (Fin b)) hundred ≠ Fin q.
Proof.
  intros Hb.
  assert (Hneg : is_neg b = false).
  { unfold is_zero in Hb. unfold is_neg.
    apply Z.eqb_eq in Hb. rewrite Hb. done. }
  destruct x as [| | |a]; unfold div; rewrite ?Hb, ?Hneg; simpl; try done.
  destruct (is_zero a); [done|]. by destruct (is_pos a).
Qed.

Lemma rebase_NaN_base x : mul (div x NaN) hundred = NaN.
Proof. by rewrite div_NaN_r. Qed.

End NumberFacts.

Module AppFacts.

Import App AppSpec NumberFacts.

Lemma elem_of_Object_keys (o : gmap string value) k :
  k ∈ Object_keys o ↔ is_Some (o !! k).
Proof.
  unfold Object_keys. rewrite list_elem_of_fmap. split.
  - intros [[k' v] [-> Hin]]. apply elem_of_map_to_list in Hin. by exists v.
  - intros [v Hv]. exists (k, v). split; [done|]. by apply elem_of_map_to_list.
Qed.

Lemma valid_is_Some (o : gmap string value) k :
  valid (get o k) = true → is_Some (o !! k).
Proof. unfold get. destruct (o !! k); [eauto | done]. Qed.

Lemma valid_in_keys (o : gmap string value) k :
  valid (get o k) = true → k ∈ Object_keys o.
Proof. intros H. apply elem_of_Object_keys. by apply valid_is_Some. Qed.

Lemma map_lookup_Some {A B} (f : A → B) (l : list A) i x :
  l !! i = Some x → map f l !! i = Some (f x).
Proof.
  intros H. change (map f l) with (f <$> l). by rewrite list_lookup_fmap, H.
Qed.

(** A loop over keys that writes at most the visited property. *)
Lemma foldl_update_lookup (step : gmap string value → string → gmap string value)
    (g : string → option value) ks (acc : gmap string value) j :
  (∀ m k, step m k = match g k with Some v => <[k:=v]> m | None => m end) →
  foldl step acc ks !! j =
    if bool_decide (j ∈ ks)
    then match g j with Some v => Some v | None => acc !! j end
    else acc !! j.
Proof.
  intros Hstep. revert acc. induction ks as [|k ks IH]; intros acc; simpl.
  - done.
  - rewrite IH, Hstep. clear IH Hstep.
    destruct (decide (j = k)) as [->|Hne].
    + rewrite (bool_decide_eq_true_2 (k ∈ k :: ks)) by apply list_elem_of_here.
      destruct (g k) as [v|]; [|by case_bool_decide].
      rewrite lookup_insert_eq. by case_bool_decide.
    + assert (Hlk : match g k with Some v => <[k:=v]> acc | None => acc end !! j
                    = acc !! j).
      { destruct (g k); [by rewrite lookup_insert_ne | done]. }
      rewrite Hlk.
      assert (Hiff : j ∈ k :: ks ↔ j ∈ ks).
      { rewrite elem_of_cons. split; [by intros [?|?] | by right]. }
      destruct (decide (j ∈ ks)) as [Hin|Hin].
      * rewrite !bool_decide_eq_true_2 by tauto.
        by destruct (g j).
      * by rewrite !bool_decide_eq_false_2 by tauto.
Qed.

Section Facts.

Variable StringToNumber : string -> number.

Abbreviation ToNumber := (JS.ToNumber StringToNumber).
Abbreviation firstValid := (App.firstValid StringToNumber).
Abbreviation baseValuesFrom := (App.baseValuesFrom StringToNumber).
Abbreviation normalizedValues := (App.normalizedValues StringToNumber).
Abbreviation weightedTotal := (App.weightedTotal StringToNumber).
Abbreviation normalizePoint := (App.normalizePoint StringToNumber).
Abbreviation normalizeData := (App.normalizeData StringToNumber).

Lemma firstValid_findValid key data bv :
  firstValid key data bv =
    match findValid key data with
    | Some v => <[key := VNumber (ToNumber v)]> bv
    | None => bv
    end.
Proof.
  induction data as [|point rest IH]; simpl; [done|].
  by destruct (valid (get point key)).
Qed.

Lemma findValid_FirstValidAt key data i v :
  FirstValidAt key data i v → findValid key data = Some v.
Proof.
  revert i. induction data as [|point rest IH]; intros i [[p [Hp Hv]] [Hval Hbefore]].
  - by rewrite lookup_nil in Hp.
  - simpl. destruct i as [|i]; simpl in Hp.
    + injection Hp as <-. by rewrite Hv, Hval.
    + rewrite (Hbefore 0%nat point); [|lia|done].
      apply (IH i). split; [by exists p|]. split; [done|].
      intros j q Hj Hq. apply (Hbefore (S j) q); [lia | done].
Qed.


(** What the base scan records for a property. *)
Lemma baseValuesFrom_lookup first data k :
  baseValuesFrom first data !! k =
    if bool_decide (k ∈ Object_keys first)
    then if bool_decide (k ≠ "date")
         then (λ v, VNumber (ToNumber v)) <$> findValid k data
         else None
    else None.
Proof.
  unfold App.baseValuesFrom.
  rewrite (foldl_update_lookup _
             (λ key, if bool_decide (key ≠ "date")
                     then (λ v, VNumber (ToNumber v)) <$> findValid key data
                     else None)).
  - rewrite lookup_empty. repeat case_bool_decide; try done.
    by destruct (findValid k data).
  - intros m key. case_bool_decide; [|done].
    rewrite firstValid_findValid. by destruct (findValid key data).
Qed.

(** The properties of a normalized point before [TOTAL] is added. *)
Lemma normalizedValues_lookup bv point k :
  normalizedValues bv point !! k =
    if bool_decide (k = "date") then Some (get point "date")
    else if valid (get point k)
         then Some (VNumber (mul (div (ToNumber (get point k))
                                      (ToNumber (get bv k))) hundred))
         else None.
Proof.
  unfold App.normalizedValues.
  rewrite (foldl_update_lookup _
             (λ key, if bool_decide (key ≠ "date") && valid (get point key)
                     then Some (VNumber (mul (div (ToNumber (get point key))
                                                  (ToNumber (get bv key)))
                                             hundred))
                     else None)).
  - destruct (decide (k = "date")) as [->|Hne].
    + rewrite (bool_decide_eq_false_2 ("date" ≠ "date")) by naive_solver.
      cbn [andb]. rewrite lookup_singleton_eq.
      rewrite (bool_decide_eq_true_2 ("date" = "date")) by done.
      by case_bool_decide.
    + rewrite (bool_decide_eq_true_2 (k ≠ "date")) by done.
      rewrite (bool_decide_eq_false_2 (k = "date")) by done. cbn [andb].
      rewrite lookup_singleton_ne by done.
      destruct (valid (get point k)) eqn:Hval; [|by case_bool_decide].
      rewrite bool_decide_eq_true_2; [done | by apply valid_in_keys].
  - intros m key.
    by destruct (bool_decide (key ≠ "date") && valid (get point key)).
Qed.

(** The base recorded for a series present in the first point is its
    first valid value. *)
Lemma baseValuesFrom_FirstValidAt first data k i v :
  is_Some (first !! k) → k ≠ "date" → FirstValidAt k data i v →
  baseValuesFrom first data !! k = Some (VNumber (ToNumber v)).
Proof.
  intros Hk Hdate Hfirst. rewrite baseValuesFrom_lookup.
  rewrite bool_decide_eq_true_2 by (by apply elem_of_Object_keys).
  rewrite bool_decide_eq_true_2 by done.
  by rewrite (findValid_FirstValidAt _ _ _ _ Hfirst).
Qed.

(** No base is recorded for a property missing from the first point. *)
Lemma baseValuesFrom_not_in_first first data k :
  first !! k = None → baseValuesFrom first data !! k = None.
Proof.
  intros Hk. rewrite baseValuesFrom_lookup.
  rewrite bool_decide_eq_false_2; [done|].
  rewrite elem_of_Object_keys, Hk. by intros [? ?].
Qed.

Lemma normalizePoint_lookup_TOTAL ti bv portfolio point :
  normalizePoint ti bv portfolio point !! "TOTAL" =
    Some (VNumber (weightedTotal ti portfolio (normalizedValues bv point))).
Proof. unfold App.normalizePoint. by rewrite lookup_insert_eq. Qed.

Lemma normalizePoint_lookup_ne ti bv portfolio point k :
  k ≠ "TOTAL" →
  normalizePoint ti bv portfolio point !! k = normalizedValues bv point !! k.
Proof. intros Hk. unfold App.normalizePoint. by rewrite lookup_insert_ne. Qed.

(** The normalized value of a valid entry of an instrument series. *)
Lemma normalizePoint_lookup_valid ti bv portfolio point k :
  k ≠ "date" → k ≠ "TOTAL" → valid (get point k) = true →
  normalizePoint ti bv portfolio point !! k =
    Some (VNumber (mul (div (ToNumber (get point k)) (ToNumber (get bv k)))
                       hundred)).
Proof.
  intros Hdate Htotal Hval.
  rewrite normalizePoint_lookup_ne, normalizedValues_lookup by done.
  by rewrite bool_decide_eq_false_2, Hval by done.
Qed.

(** On a non-empty list [normalizeData] maps [normalizePoint] over it. *)
Lemma normalizeData_cons first rest portfolio :
  normalizeData (first :: rest) portfolio =
    Normal (map (normalizePoint (totalInvestment portfolio)
                   (baseValuesFrom first (first :: rest)) portfolio)
                (first :: rest)).
Proof. done. Qed.

(** Once the running sum is [NaN] it stays [NaN]. *)
Lemma weightedTotal_step_NaN ti np (l : list PortfolioHolding) :
  foldl (λ sum holding,
           let symbol := symbol holding in
           if not_undefined (get np symbol)
           then
             let weight := div (shares holding) ti in
             add sum (mul (ToNumber (get np symbol)) weight)
           else sum) NaN l = NaN.
Proof. induction l as [|h l IH]; simpl; [done|]. by destruct (not_undefined _). Qed.

(** A non-CASH holding whose term of the sum is [NaN] makes the weighted
    total [NaN]. *)
Lemma weightedTotal_NaN ti portfolio np h :
  h ∈ holdings portfolio → symbol h ≠ "CASH" →
  not_undefined (get np (symbol h)) = true →
  mul (ToNumber (get np (symbol h))) (div (shares h) ti) = NaN →
  weightedTotal ti portfolio np = NaN.
Proof.
  intros Hin Hcash Hdef Hterm. unfold App.weightedTotal, nonCash.
  assert (Hin' : h ∈ filter (λ h, symbol h ≠ "CASH") (holdings portfolio))
    by (by apply list_elem_of_filter).
  apply list_elem_of_split in Hin' as (l1 & l2 & ->).
  rewrite foldl_app. simpl. rewrite Hdef, Hterm, add_NaN_r.
  apply weightedTotal_step_NaN.
Qed.






Lemma normalizedValues_absent bv point k :
  k ≠ "date" → valid (get point k) = false →
  normalizedValues bv point !! k = None.
Proof.
  intros Hdate Habs. rewrite normalizedValues_lookup.
  by rewrite bool_decide_eq_false_2, Habs.
Qed.

End Facts.

End AppFacts.

(** ** Properties of [normalizeData] *)

Module NormalizeDataProps.

Import App AppSpec NumberFacts AppFacts.

Section Props.

Variable StringToNumber : string -> number.

Abbreviation ToNumber := (JS.ToNumber StringToNumber).
Abbreviation baseValuesFrom := (App.baseValuesFrom StringToNumber).
Abbreviation normalizedValues := (App.normalizedValues StringToNumber).
Abbreviation weightedTotal := (App.weightedTotal StringToNumber).
Abbreviation normalizePoint := (App.normalizePoint StringToNumber).
Abbreviation normalizeData := (App.normalizeData StringToNumber).

(** C10.  [normalizeData] reads [data[0]] unconditionally: on the empty
    list it throws (a [TypeError] from [Object.keys(undefined)]) instead
    of returning an empty list, and on every non-empty list it returns
    one output point per input point. *)
Theorem normalizeData_total_only_on_nonempty portfolio :
  normalizeData [] portfolio = Throw TypeError ∧
  ∀ first rest, ∃ out,
    normalizeData (first :: rest) portfolio = Normal out ∧
    length out = length (first :: rest).
Proof.
  split; [done|]. intros first rest. eexists. split; [done|].
  by rewrite length_map.
Qed.

(** C9.  The base scan only visits the properties of the first point.
    When an instrument has no entry in the first point but a valid value
    at a later index, no base is recorded for it, its normalized value at
    that index is [NaN], and the weighted [TOTAL] of that point is [NaN]
    as soon as a non-CASH holding carries that instrument: the series is
    not omitted. *)
Theorem late_key_yields_NaN first rest portfolio k i point :
  first !! k = None → k ≠ "date" →
  (first :: rest) !! i = Some point → valid (get point k) = true →
  baseValuesFrom first (first :: rest) !! k = None ∧
  ∃ out np,
    normalizeData (first :: rest) portfolio = Normal out ∧
    out !! i = Some np ∧
    (k ≠ "TOTAL" → np !! k = Some (VNumber NaN)) ∧
    (∀ h, h ∈ holdings portfolio → symbol h = k → k ≠ "CASH" →
          np !! "TOTAL" = Some (VNumber NaN)).
Proof.
  intros Hk Hdate Hi Hval.
  pose proof (baseValuesFrom_not_in_first StringToNumber first
                (first :: rest) k Hk) as Hbase.
  split; [done|].
  eexists _, _. split; [apply normalizeData_cons|].
  split; [by apply map_lookup_Some|].
  assert (Hnp : normalizedValues (baseValuesFrom first (first :: rest)) point
                !! k = Some (VNumber NaN)).
  { rewrite normalizedValues_lookup.
    rewrite bool_decide_eq_false_2, Hval by done.
    unfold get at 2. rewrite Hbase. simpl. by rewrite div_NaN_r. }
  split.
  - intros Htotal. by rewrite normalizePoint_lookup_ne.
  - intros h Hin Hsym Hcash. subst k.
    rewrite normalizePoint_lookup_TOTAL. do 2 f_equal.
    apply (weightedTotal_NaN _ _ _ _ h); try done.
    + unfold get. by rewrite Hnp.
    + unfold get. by rewrite Hnp.
Qed.

(** C1.  With a zero sum of non-CASH shares the weight of a zero-share
    holding is [0 / 0]: at every point where such a holding has a
    normalized value the [TOTAL] computed by [normalizeData] is [NaN],
    not 0. *)
Theorem zero_investment_TOTAL_is_NaN data portfolio h t s i point :
  totalInvestment portfolio = Fin t → is_zero t = true →
  h ∈ holdings portfolio → symbol h ≠ "CASH" → symbol h ≠ "date" →
  shares h = Fin s → is_zero s = true →
  data !! i = Some point → valid (get point (symbol h)) = true →
  ∃ out np,
    normalizeData data portfolio = Normal out ∧
    out !! i = Some np ∧
    np !! "TOTAL" = Some (VNumber NaN).
Proof.
  intros Hti Ht Hin Hcash Hdate Hs Hsz Hi Hval.
  destruct data as [|first rest]; [by rewrite lookup_nil in Hi|].
  eexists _, _. split; [apply normalizeData_cons|].
  split; [by apply map_lookup_Some|].
  rewrite normalizePoint_lookup_TOTAL. do 2 f_equal.
  assert (Hnp : is_Some (normalizedValues
                           (baseValuesFrom first (first :: rest)) point
                         !! symbol h)).
  { rewrite normalizedValues_lookup.
    rewrite bool_decide_eq_false_2, Hval by done. eauto. }
  destruct Hnp as [x Hx].
  assert (Hx' : ∃ n, x = VNumber n).
  { rewrite normalizedValues_lookup in Hx.
    rewrite bool_decide_eq_false_2, Hval in Hx by done.
    injection Hx as <-. eauto. }
  destruct Hx' as [n ->].
  apply (weightedTotal_NaN _ _ _ _ h); try done.
  - unfold get. by rewrite Hx.
  - rewrite Hti, Hs. unfold div. rewrite Ht, Hsz. apply mul_NaN_r.
Qed.

(** C2 (as amended).  When the first valid value of an instrument series
    is exactly zero, [normalizeData] raises no condition: it completes
    normally, the division by the zero base is carried out, and every
    normalized value of that series is [NaN] or an infinity, never a
    finite number; at the base index it is [NaN]. *)
Theorem zero_base_divides_silently data portfolio k i0 b :
  k ≠ "date" → k ≠ "TOTAL" →
  FirstValidAt k data i0 (VNumber (Fin b)) → is_zero b = true →
  ∃ out,
    normalizeData data portfolio = Normal out ∧
    length out = length data ∧
    ∀ i point, data !! i = Some point → valid (get point k) = true →
      ∃ np n, out !! i = Some np ∧ np !! k = Some (VNumber n) ∧
              (∀ q, n ≠ Fin q) ∧ (i = i0 → n = NaN).
Proof.
  intros Hdate Htotal Hfirst Hb.
  destruct data as [|first rest].
  { destruct Hfirst as [[p [Hp _]] _]. by rewrite lookup_nil in Hp. }
  eexists. split; [apply normalizeData_cons|].
  split; [by rewrite length_map|].
  intros i point Hi Hval. eexists _, _.
  split; [by apply map_lookup_Some|].
  split; [by apply normalizePoint_lookup_valid|].
  destruct (first !! k) as [x|] eqn:Hk.
  - assert (Hbase : get (baseValuesFrom first (first :: rest)) k
                    = VNumber (Fin b)).
    { unfold get.
      by rewrite (baseValuesFrom_FirstValidAt _ _ _ _ i0
                    (VNumber (Fin b))) by eauto. }
    rewrite Hbase. simpl. split.
    + intros q. by apply rebase_zero_base_not_finite.
    + intros ->. destruct Hfirst as [[p [Hp Hv]] _].
      rewrite Hp in Hi. injection Hi as ->. rewrite Hv. simpl.
      unfold div. by rewrite Hb.
  - assert (Hbase : get (baseValuesFrom first (first :: rest)) k
                    = VUndefined).
    { unfold get. by rewrite baseValuesFrom_not_in_first. }
    rewrite Hbase. simpl. rewrite rebase_NaN_base. by split.
Qed.

(** C3 (as amended).  For every instrument series that has an entry in
    the first point and whose first valid value is a finite non-zero
    number, the normalized value at the index of that first valid value
    is exactly 100. *)
Theorem first_valid_is_100 data first portfolio k i b :
  head data = Some first → is_Some (first !! k) →
  k ≠ "date" → k ≠ "TOTAL" →
  FirstValidAt k data i (VNumber (Fin b)) → is_zero b = false →
  ∃ out np,
    normalizeData data portfolio = Normal out ∧
    out !! i = Some np ∧
    np !! k = Some (VNumber (Fin 100)).
Proof.
  intros Hhead Hk Hdate Htotal Hfirst Hb.
  destruct data as [|first' rest]; [done|]. injection Hhead as ->.
  pose proof Hfirst as [[p [Hp Hv]] [Hval _]].
  eexists _, _. split; [apply normalizeData_cons|].
  split; [by apply map_lookup_Some|].
  rewrite normalizePoint_lookup_valid by (by rewrite ?Hv).
  unfold get at 2.
  rewrite (baseValuesFrom_FirstValidAt _ _ _ _ i (VNumber (Fin b)))
    by done.
  rewrite Hv. cbn [JS.ToNumber]. by rewrite rebase_self.
Qed.



End Props.

End NormalizeDataProps.

(** ** Properties of the holdings ledger and of the valuation table *)

Module PortfolioManagerProps.

Import PortfolioManager PortfolioManagerSpec NumberFacts.

(** [Math.max(0, q)] of a finite number is the larger of 0 and [q]. *)
Lemma Math_max_zero_Fin q :
  ∃ m, Math_max zero (Fin q) = Fin m ∧ (m == Qmax 0 q)%Q.
Proof.
  unfold Math_max, zero, gt.
  destruct (Qle_bool q 0) eqn:Hle; simpl.
  - exists 0%Q. split; [done|]. apply Qle_bool_iff in Hle.
    symmetry. by apply Q.max_l.
  - exists q. split; [done|]. symmetry. apply Q.max_r.
    apply Qnot_lt_le. intros Hlt. apply Qlt_le_weak in Hlt.
    apply Qle_bool_iff in Hlt. congruence.
Qed.

(** C5 (as amended).  When no holding carries the given symbol,
    [handleSharesChange] raises no error: the update completes normally,
    leaves every holding as it was and only sets [lastUpdated]. *)
Theorem unknown_symbol_is_ignored now s sh prev :
  (∀ h, h ∈ holdings prev → symbol h ≠ s) →
  handleSharesChange now s sh prev =
    Normal {| holdings := holdings prev; lastUpdated := now |}.
Proof.
  intros Hno. unfold handleSharesChange. do 2 f_equal.
  induction (holdings prev) as [|h l IH]; simpl; [done|].
  rewrite bool_decide_eq_false_2 by (apply Hno, list_elem_of_here).
  f_equal. apply IH. intros h' Hin. apply Hno. by apply list_elem_of_further.
Qed.

(** C6.  [handleSharesChange(symbol, shares)] completes normally; in the
    new portfolio [lastUpdated] is the current time, the holdings keep
    their number and order, a holding carrying the symbol has its shares
    replaced by [Math.max(0, shares)] (for a finite number, the larger of
    0 and [shares]) and keeps its other fields, and every other holding is
    unchanged. *)
Theorem handleSharesChange_updates now s sh prev i h :
  holdings prev !! i = Some h →
  ∃ next h',
    handleSharesChange now s sh prev = Normal next ∧
    lastUpdated next = now ∧
    length (holdings next) = length (holdings prev) ∧
    holdings next !! i = Some h' ∧
    symbol h' = symbol h ∧ currentPrice h' = currentPrice h ∧
    (symbol h = s → shares h' = Math_max zero sh) ∧
    (symbol h ≠ s → h' = h) ∧
    (∀ q, sh = Fin q → ∃ m, Math_max zero sh = Fin m ∧ (m == Qmax 0 q)%Q).
Proof.
  intros Hi. eexists _, _. split; [done|]. simpl.
  split; [done|]. split; [by rewrite length_map|].
  split; [by apply AppFacts.map_lookup_Some|].
  case_bool_decide as Hs; simpl; repeat split; try done.
  intros q ->. apply Math_max_zero_Fin.
  intros q ->. apply Math_max_zero_Fin.
Qed.

Lemma gt_zero_nonneg n : gt n zero = true → nonneg n.
Proof.
  destruct n as [| | |q]; simpl; try done.
  intros H. apply negb_true_iff in H.
  apply Qlt_le_weak, Qnot_le_lt. intros Hle.
  apply Qle_bool_iff in Hle. congruence.
Qed.

Lemma add_nonneg a b : nonneg a → nonneg b → nonneg (add a b).
Proof.
  destruct a as [| | |x], b as [| | |y]; simpl; try done.
  intros Hx Hy. rewrite Qred_correct.
  replace 0%Q with (0 + 0)%Q by done. by apply Qplus_le_compat.
Qed.

(** The truthiness test [totalValue ? ... : 0] on such a total is the test
    [totalValue > 0]. *)
Lemma ToBoolean_nonneg n : nonneg n → ToBoolean (VNumber n) = gt n zero.
Proof.
  destruct n as [| | |q]; simpl; try done.
  intros Hq. f_equal. unfold is_zero.
  destruct (Qle_bool q 0) eqn:Hle.
  - apply Qle_bool_iff in Hle. apply Z.eqb_eq.
    assert (Hz : (q == 0)%Q) by (by apply Qle_antisym).
    unfold Qeq in Hz. simpl in Hz. lia.
  - apply Z.eqb_neq. intros Hz.
    assert (Hle' : Qle_bool q 0 = true).
    { apply Qle_bool_iff. unfold Qle. simpl. lia. }
    congruence.
Qed.

Lemma mul_Fin_zero s : mul (Fin s) zero = Fin 0.
Proof.
  unfold mul, zero. change (Fin 0) with (Fin (Qred 0)).
  apply Fin_Qred_eq. ring.
Qed.

Lemma weight_of_zero_value total :
  nonneg total →
  (if gt total zero then mul (div (Fin 0) total) hundred else zero) = Fin 0.
Proof.
  destruct total as [| | |t]; simpl; try done.
  intros Ht. destruct (Qle_bool t 0) eqn:Hle; simpl; [done|].
  assert (Hz : is_zero t = false).
  { apply is_zero_false. intros Heq.
    assert (Qle_bool t 0 = true); [|congruence].
    apply Qle_bool_iff. rewrite Heq. apply Qle_refl. }
  unfold div. rewrite Hz. unfold mul, hundred.
  change (Fin 0) with (Fin (Qred 0)). apply Fin_Qred_eq.
  rewrite Qred_correct. apply is_zero_false in Hz. by field.
Qed.

Section ValuationProps.

Variable StringToNumber : string -> number.
Variable currentPrices : gmap string value.

Abbreviation ToNumber := (JS.ToNumber StringToNumber).
Abbreviation priceOrZero := (PortfolioManager.priceOrZero currentPrices).
Abbreviation pieData :=
  (PortfolioManager.pieData StringToNumber currentPrices).
Abbreviation totalValue :=
  (PortfolioManager.totalValue StringToNumber currentPrices).
Abbreviation holdingRow := (PortfolioManager.holdingRow StringToNumber currentPrices).

Lemma totalValue_nonneg portfolio : nonneg (totalValue portfolio).
Proof.
  unfold PortfolioManager.totalValue.
  assert (Hall : Forall (λ item, gt (pieValue item) zero = true)
                   (pieData portfolio)).
  { apply Forall_forall. intros item Hin.
    by apply list_elem_of_filter in Hin as [? _]. }
  assert (H0 : nonneg zero) by (simpl; apply Qle_refl).
  revert H0. generalize zero.
  induction Hall as [|item l Hitem _ IH]; intros acc Hacc; simpl; [done|].
  apply IH. apply add_nonneg; [done|]. by apply gt_zero_nonneg.
Qed.

(** A holding without a price entry is worth zero. *)
Lemma priceOrZero_absent h :
  currentPrices !! (symbol h +:+ ".AX") = None →
  priceOrZero h = VNumber zero.
Proof.
  intros Hp. unfold PortfolioManager.priceOrZero, or_else, get.
  by rewrite Hp.
Qed.

(** A holding worth zero does not enter [pieData]. *)
Lemma pieData_drop l1 h l2 lu s :
  symbol h ≠ "CASH" → shares h = Fin s →
  currentPrices !! (symbol h +:+ ".AX") = None →
  pieData {| holdings := l1 ++ h :: l2; lastUpdated := lu |} =
    pieData {| holdings := l1 ++ l2; lastUpdated := lu |}.
Proof.
  intros Hcash Hs Hp. unfold PortfolioManager.pieData. simpl.
  rewrite !map_app, !filter_app. f_equal. simpl.
  rewrite filter_cons_False; [done|]. simpl.
  rewrite bool_decide_eq_false_2 by done.
  rewrite priceOrZero_absent, Hs by done. simpl ToNumber.
  rewrite mul_Fin_zero. by simpl.
Qed.

(** C7 (as amended).  In the holdings table, for every holding with a
    finite number of shares: the price is 1 for CASH, otherwise the entry
    of [currentPrices] under the symbol with its [.AX] suffix, or 0 when
    there is no entry; the value is shares times price; the weight is a
    percentage, [value / totalValue * 100] when [totalValue > 0] and 0
    otherwise; a holding without a price entry has value 0 and weight 0,
    and [totalValue] is the total of the remaining holdings. *)
Theorem holdingRow_valuation portfolio h s :
  h ∈ holdings portfolio → shares h = Fin s →
  let total := totalValue portfolio in
  let row := holdingRow total h in
  (symbol h = "CASH" → rowPrice row = VNumber one) ∧
  (symbol h ≠ "CASH" → ∀ p,
     currentPrices !! (symbol h +:+ ".AX") = Some (VNumber (Fin p)) →
     is_zero p = false → rowPrice row = VNumber (Fin p)) ∧
  (symbol h ≠ "CASH" →
     currentPrices !! (symbol h +:+ ".AX") = None →
     rowPrice row = VNumber zero ∧
     rowValue row = Fin 0 ∧ rowWeight row = Fin 0 ∧
     ∀ l1 l2, holdings portfolio = l1 ++ h :: l2 →
       totalValue {| holdings := l1 ++ l2;
                     lastUpdated := lastUpdated portfolio |} = total) ∧
  rowValue row = mul (shares h) (ToNumber (rowPrice row)) ∧
  rowWeight row =
    (if gt total zero then mul (div (rowValue row) total) hundred
     else zero).
Proof.
  intros Hin Hs total row.
  pose proof (totalValue_nonneg portfolio) as Hnn. fold total in Hnn.
  assert (Hweight : rowWeight row =
            (if gt total zero then mul (div (rowValue row) total) hundred
             else zero)).
  { unfold row, PortfolioManager.holdingRow.
    cbn [rowWeight rowPrice rowValue].
    by rewrite ToBoolean_nonneg. }
  repeat split; try done.
  - intros Hcash. unfold row, PortfolioManager.holdingRow.
    cbn [rowWeight rowPrice rowValue].
    by rewrite bool_decide_eq_true_2.
  - intros Hcash p Hp Hpz. unfold row, PortfolioManager.holdingRow.
    cbn [rowWeight rowPrice rowValue].
    rewrite bool_decide_eq_false_2 by done.
    unfold PortfolioManager.priceOrZero, or_else, get. rewrite Hp. simpl.
    by rewrite Hpz.
  - unfold row, PortfolioManager.holdingRow.
    cbn [rowWeight rowPrice rowValue].
    rewrite bool_decide_eq_false_2 by done. by apply priceOrZero_absent.
  - unfold row, PortfolioManager.holdingRow.
    cbn [rowWeight rowPrice rowValue].
    rewrite bool_decide_eq_false_2 by done.
    rewrite priceOrZero_absent, Hs by done. apply mul_Fin_zero.
  - rewrite Hweight.
    assert (Hval : rowValue row = Fin 0).
    { unfold row, PortfolioManager.holdingRow.
    cbn [rowWeight rowPrice rowValue].
      rewrite bool_decide_eq_false_2 by done.
      rewrite priceOrZero_absent, Hs by done. apply mul_Fin_zero. }
    rewrite Hval. by apply weight_of_zero_value.
  - intros l1 l2 Hl. unfold total, PortfolioManager.totalValue.
    destruct portfolio as [hs lu]. simpl in Hl. subst hs. simpl.
    by rewrite (pieData_drop l1 h l2 lu s).
Qed.

End ValuationProps.

End PortfolioManagerProps.

(** ** The properties on concrete inputs *)

Module NormalizeDataExamples.

Import App AppSpec NormalizeDataProps Inputs.

Abbreviation normalizeData := (App.normalizeData noNumber).
Abbreviation baseValuesFrom := (App.baseValuesFrom noNumber).

(** The worked example: A = 10, 20 and B = 50, 25 with one share each give
    the normalized series 100, 200 and 100, 50 and the total 100, 125. *)
Example normalizeData_dataAB :
  ∃ p0 p1,
    normalizeData dataAB portfolioAB = Normal [p0; p1] ∧
    (p0 !! "A", p0 !! "B", p0 !! "TOTAL") =
      (Some (num 100), Some (num 100), Some (num 100)) ∧
    (p1 !! "A", p1 !! "B", p1 !! "TOTAL") =
      (Some (num 200), Some (num 50), Some (num 125)).
Proof. eexists _, _. split; [reflexivity|]. by vm_compute. Qed.

(** A valid value in the first point is the first valid value. *)
Lemma FirstValidAt_head key point rest v :
  get point key = v → valid v = true →
  FirstValidAt key (point :: rest) 0 v.
Proof.
  intros Hv Hval. split; [by exists point|]. split; [done|].
  intros j p Hj. inversion Hj.
Defined.

(** [late_key_yields_NaN] on [dataLateKey], series A at index 1. *)
Lemma late_key_yields_NaN_witness :
  janB !! "A" = None ∧ "A" ≠ "date" ∧
  (janB :: [febAB]) !! 1%nat = Some febAB ∧
  valid (get febAB "A") = true ∧
  (baseValuesFrom janB (janB :: [febAB]) !! "A" = None ∧
   ∃ out np,
     normalizeData (janB :: [febAB]) portfolioAB = Normal out ∧
     out !! 1%nat = Some np ∧
     ("A" ≠ "TOTAL" → np !! "A" = Some (VNumber NaN)) ∧
     (∀ h, h ∈ holdings portfolioAB → symbol h = "A" → "A" ≠ "CASH" →
           np !! "TOTAL" = Some (VNumber NaN))).
Proof.
  assert (H1 : janB !! "A" = None) by (vm_compute; reflexivity).
  assert (H2 : "A" ≠ "date") by discriminate.
  assert (H3 : (janB :: [febAB]) !! 1%nat = Some febAB) by reflexivity.
  assert (H4 : valid (get febAB "A") = true) by (vm_compute; reflexivity).
  do 4 (split; [assumption|]).
  exact (late_key_yields_NaN noNumber janB [febAB] portfolioAB "A" 1 febAB
           H1 H2 H3 H4).
Defined.

(** [zero_investment_TOTAL_is_NaN] on the default portfolio and one point
    of VAS. *)
Lemma zero_investment_TOTAL_is_NaN_witness :
  totalInvestment defaultPortfolio = Fin 0 ∧ is_zero 0 = true ∧
  holding "VAS" 0 ∈ holdings defaultPortfolio ∧
  symbol (holding "VAS" 0) ≠ "CASH" ∧ symbol (holding "VAS" 0) ≠ "date" ∧
  shares (holding "VAS" 0) = Fin 0 ∧
  dataVAS !! 0%nat = Some janVAS ∧
  valid (get janVAS (symbol (holding "VAS" 0))) = true ∧
  ∃ out np,
    normalizeData dataVAS defaultPortfolio = Normal out ∧
    out !! 0%nat = Some np ∧
    np !! "TOTAL" = Some (VNumber NaN).
Proof.
  assert (H1 : totalInvestment defaultPortfolio = Fin 0)
    by (vm_compute; reflexivity).
  assert (H2 : is_zero 0 = true) by reflexivity.
  assert (H3 : holding "VAS" 0 ∈ holdings defaultPortfolio)
    by apply list_elem_of_here.
  assert (H4 : symbol (holding "VAS" 0) ≠ "CASH") by discriminate.
  assert (H5 : symbol (holding "VAS" 0) ≠ "date") by discriminate.
  assert (H6 : shares (holding "VAS" 0) = Fin 0) by reflexivity.
  assert (H7 : dataVAS !! 0%nat = Some janVAS) by reflexivity.
  assert (H8 : valid (get janVAS (symbol (holding "VAS" 0))) = true)
    by (vm_compute; reflexivity).
  do 8 (split; [assumption|]).
  exact (zero_investment_TOTAL_is_NaN noNumber dataVAS defaultPortfolio
           (holding "VAS" 0) 0 0 0 janVAS H1 H2 H3 H4 H5 H6 H2 H7 H8).
Defined.

(** C2, counterexample.  The first valid value of series A is zero, yet
    [normalizeData] does not fail: it returns, and the normalized values of
    A are [NaN] and [+Infinity], the results of dividing by zero. *)
Lemma zero_base_no_failure_counterexample :
  FirstValidAt "A" dataZeroBase 0 (VNumber (Fin 0)) ∧
  (∀ e, normalizeData dataZeroBase portfolioAB ≠ Throw e) ∧
  ∃ p0 p1,
    normalizeData dataZeroBase portfolioAB = Normal [p0; p1] ∧
    p0 !! "A" = Some (VNumber NaN) ∧ p1 !! "A" = Some (VNumber PInf).
Proof.
  split; [by apply FirstValidAt_head|]. split; [done|].
  eexists _, _. split; [reflexivity|]. by vm_compute.
Qed.

(** [zero_base_divides_silently] on [dataZeroBase], series A. *)
Lemma zero_base_divides_silently_witness :
  "A" ≠ "date" ∧ "A" ≠ "TOTAL" ∧
  FirstValidAt "A" dataZeroBase 0 (VNumber (Fin 0)) ∧ is_zero 0 = true ∧
  ∃ out,
    normalizeData dataZeroBase portfolioAB = Normal out ∧
    length out = length dataZeroBase ∧
    ∀ i point, dataZeroBase !! i = Some point →
      valid (get point "A") = true →
      ∃ np n, out !! i = Some np ∧ np !! "A" = Some (VNumber n) ∧
              (∀ q, n ≠ Fin q) ∧ (i = 0%nat → n = NaN).
Proof.
  assert (H1 : "A" ≠ "date") by discriminate.
  assert (H2 : "A" ≠ "TOTAL") by discriminate.
  assert (H3 : FirstValidAt "A" dataZeroBase 0 (VNumber (Fin 0)))
    by (apply FirstValidAt_head; vm_compute; reflexivity).
  assert (H4 : is_zero 0 = true) by reflexivity.
  do 4 (split; [assumption|]).
  exact (zero_base_divides_silently noNumber dataZeroBase portfolioAB "A" 0 0
           H1 H2 H3 H4).
Defined.

(** C3, counterexample.  Series A of [dataZeroBase] has the first valid
    value 0 at index 0 and series A of [dataLateKey] has the first valid
    value 20 at index 1; in both the normalized value at that index is
    [NaN], not 100. *)
Lemma first_valid_not_100_counterexample :
  (FirstValidAt "A" dataZeroBase 0 (VNumber (Fin 0)) ∧
   ∃ p0 p1,
     normalizeData dataZeroBase portfolioAB = Normal [p0; p1] ∧
     p0 !! "A" = Some (VNumber NaN) ∧
     p0 !! "A" ≠ Some (VNumber (Fin 100))) ∧
  (FirstValidAt "A" dataLateKey 1 (VNumber (Fin 20)) ∧
   ∃ p0 p1,
     normalizeData dataLateKey portfolioAB = Normal [p0; p1] ∧
     p1 !! "A" = Some (VNumber NaN) ∧
     p1 !! "A" ≠ Some (VNumber (Fin 100))).
Proof.
  split.
  - split; [by apply FirstValidAt_head|].
    eexists _, _. split; [reflexivity|]. by vm_compute.
  - split.
    + split; [by exists febAB|]. split; [done|].
      intros j p Hj Hp. destruct j as [|j]; [|lia].
      injection Hp as <-. by vm_compute.
    + eexists _, _. split; [reflexivity|]. by vm_compute.
Qed.

(** [first_valid_is_100] on [dataAB], series A (base 10 at index 0). *)
Lemma first_valid_is_100_witness :
  head dataAB = Some janAB ∧ is_Some (janAB !! "A") ∧
  "A" ≠ "date" ∧ "A" ≠ "TOTAL" ∧
  FirstValidAt "A" dataAB 0 (VNumber (Fin 10)) ∧ is_zero 10 = false ∧
  ∃ out np,
    normalizeData dataAB portfolioAB = Normal out ∧
    out !! 0%nat = Some np ∧
    np !! "A" = Some (VNumber (Fin 100)).
Proof.
  assert (H1 : head dataAB = Some janAB) by reflexivity.
  assert (H2 : is_Some (janAB !! "A"))
    by (exists (VNumber (Fin 10)); vm_compute; reflexivity).
  assert (H3 : "A" ≠ "date") by discriminate.
  assert (H4 : "A" ≠ "TOTAL") by discriminate.
  assert (H5 : FirstValidAt "A" dataAB 0 (VNumber (Fin 10)))
    by (apply FirstValidAt_head; vm_compute; reflexivity).
  assert (H6 : is_zero 10 = false) by reflexivity.
  do 6 (split; [assumption|]).
  exact (first_valid_is_100 noNumber dataAB janAB portfolioAB "A" 0 10
           H1 H2 H3 H4 H5 H6).
Defined.





(** With series A [null] throughout, B is normalized as usual and the
    [TOTAL] is the one of B alone (weight one half). *)
Example normalizeData_dataNullA :
  ∃ p0 p1,
    normalizeData dataNullA portfolioAB = Normal [p0; p1] ∧
    (p0 !! "A", p0 !! "B", p0 !! "TOTAL") =
      (None, Some (num 100), Some (num 50)) ∧
    (p1 !! "A", p1 !! "B", p1 !! "TOTAL") =
      (None, Some (num 50), Some (num 25)).
Proof. eexists _, _. split; [reflexivity|]. by vm_compute. Qed.

End NormalizeDataExamples.

Module PortfolioManagerExamples.

Import PortfolioManager PortfolioManagerProps Inputs.

(** [update("A", -5)] stores 0 shares for A and leaves B and CASH alone. *)
Example handleSharesChange_clamps :
  handleSharesChange now "A" (Fin (-5)) portfolioAB =
    Normal {| holdings := [holding "A" 0; holding "B" 1; holding "CASH" 0];
              lastUpdated := now |}.
Proof. reflexivity. Qed.

(** No holding of [portfolioAB] is called [ZZZ]. *)
Lemma no_holding_ZZZ : ∀ h, h ∈ holdings portfolioAB → symbol h ≠ "ZZZ".
Proof.
  intros h Hin.
  apply elem_of_cons in Hin as [->|Hin]; [discriminate|].
  apply elem_of_cons in Hin as [->|Hin]; [discriminate|].
  apply elem_of_cons in Hin as [->|Hin]; [discriminate|].
  by apply elem_of_nil in Hin.
Defined.

(** C5, counterexample.  No holding of [portfolioAB] carries the symbol
    [ZZZ], yet the update does not fail: it returns the portfolio with the
    same holdings. *)
Lemma unknown_symbol_no_error_counterexample :
  (∀ h, h ∈ holdings portfolioAB → symbol h ≠ "ZZZ") ∧
  (∀ e, handleSharesChange now "ZZZ" (Fin 5) portfolioAB ≠ Throw e) ∧
  handleSharesChange now "ZZZ" (Fin 5) portfolioAB =
    Normal {| holdings := holdings portfolioAB; lastUpdated := now |}.
Proof. split; [exact no_holding_ZZZ|]. by split. Qed.

(** [unknown_symbol_is_ignored] on [portfolioAB] and the symbol [ZZZ]. *)
Lemma unknown_symbol_is_ignored_witness :
  (∀ h, h ∈ holdings portfolioAB → symbol h ≠ "ZZZ") ∧
  handleSharesChange now "ZZZ" (Fin 5) portfolioAB =
    Normal {| holdings := holdings portfolioAB; lastUpdated := now |}.
Proof.
  split; [exact no_holding_ZZZ|].
  exact (unknown_symbol_is_ignored now "ZZZ" (Fin 5) portfolioAB
           no_holding_ZZZ).
Defined.

(** [handleSharesChange_updates] on [portfolioAB]: A is set to -5. *)
Lemma handleSharesChange_updates_witness :
  holdings portfolioAB !! 0%nat = Some (holding "A" 1) ∧
  ∃ next h',
    handleSharesChange now "A" (Fin (-5)) portfolioAB = Normal next ∧
    lastUpdated next = now ∧
    length (holdings next) = length (holdings portfolioAB) ∧
    holdings next !! 0%nat = Some h' ∧
    symbol h' = symbol (holding "A" 1) ∧
    currentPrice h' = currentPrice (holding "A" 1) ∧
    (symbol (holding "A" 1) = "A" → shares h' = Math_max zero (Fin (-5))) ∧
    (symbol (holding "A" 1) ≠ "A" → h' = holding "A" 1) ∧
    (∀ q, Fin (-5) = Fin q →
          ∃ m, Math_max zero (Fin (-5)) = Fin m ∧ (m == Qmax 0 q)%Q).
Proof.
  assert (H1 : holdings portfolioAB !! 0%nat = Some (holding "A" 1))
    by reflexivity.
  split; [assumption|].
  exact (handleSharesChange_updates now "A" (Fin (-5)) portfolioAB 0
           (holding "A" 1) H1).
Defined.

Abbreviation totalValue := (PortfolioManager.totalValue noNumber pricesA).
Abbreviation holdingRow := (PortfolioManager.holdingRow noNumber pricesA).

(** C7, counterexample.  One share of A at 50 next to 50 of cash: the total
    is 100 and positive, the value of A is 50, and the weight computed for
    A is 50 (a percentage), not [value / totalValue], which is one half. *)
Lemma weight_is_not_a_fraction_counterexample :
  let total := totalValue portfolioACash in
  let row := holdingRow total (holding "A" 1) in
  total = Fin 100 ∧ gt total zero = true ∧
  rowValue row = Fin 50 ∧ rowWeight row = Fin 50 ∧
  div (rowValue row) total = Fin (1 # 2) ∧
  rowWeight row ≠ div (rowValue row) total.
Proof. by vm_compute. Qed.

(** [holdingRow_valuation] on [portfolioABCash] and the holding of B, which
    has no price. *)
Lemma holdingRow_valuation_witness :
  holding "B" 2 ∈ holdings portfolioABCash ∧
  shares (holding "B" 2) = Fin 2 ∧
  (let total := totalValue portfolioABCash in
   let row := holdingRow total (holding "B" 2) in
   (symbol (holding "B" 2) = "CASH" → rowPrice row = VNumber one) ∧
   (symbol (holding "B" 2) ≠ "CASH" → ∀ p,
      pricesA !! (symbol (holding "B" 2) +:+ ".AX") = Some (VNumber (Fin p)) →
      is_zero p = false → rowPrice row = VNumber (Fin p)) ∧
   (symbol (holding "B" 2) ≠ "CASH" →
      pricesA !! (symbol (holding "B" 2) +:+ ".AX") = None →
      rowPrice row = VNumber zero ∧
      rowValue row = Fin 0 ∧ rowWeight row = Fin 0 ∧
      ∀ l1 l2, holdings portfolioABCash = l1 ++ holding "B" 2 :: l2 →
        totalValue {| holdings := l1 ++ l2;
                      lastUpdated := lastUpdated portfolioABCash |} = total) ∧
   rowValue row = mul (shares (holding "B" 2)) (ToNumber noNumber (rowPrice row)) ∧
   rowWeight row =
     (if gt total zero then mul (div (rowValue row) total) hundred
      else zero)).
Proof.
  assert (H1 : holding "B" 2 ∈ holdings portfolioABCash)
    by apply list_elem_of_further, list_elem_of_here.
  assert (H2 : shares (holding "B" 2) = Fin 2) by reflexivity.
  do 2 (split; [assumption|]).
  exact (holdingRow_valuation noNumber pricesA portfolioABCash
           (holding "B" 2) 2 H1 H2).
Defined.

(** The table of [portfolioABCash]: A at 50, B without a price, 50 of
    cash; the total is 100, the same as without B. *)
Example holdingRows_portfolioABCash :
  PortfolioManager.holdingRows noNumber pricesA portfolioABCash =
    [ {| rowPrice := num 50; rowValue := Fin 50; rowWeight := Fin 50 |};
      {| rowPrice := num 0; rowValue := Fin 0; rowWeight := Fin 0 |};
      {| rowPrice := num 1; rowValue := Fin 50; rowWeight := Fin 50 |} ] ∧
  totalValue portfolioABCash = Fin 100 ∧
  totalValue portfolioACash = Fin 100.
Proof. by vm_compute. Qed.

End PortfolioManagerExamples.

(** ** Properties of the server's response *)

Module ServerProps.

Import NumberFacts.

Lemma stockData_lookup timestamps closePrices i :
  stockData timestamps closePrices !! i =
    (λ t, {| timestamp := t;
             close := or_else (at_index closePrices i) VNull |})
      <$> timestamps !! i.
Proof. unfold stockData. by rewrite list_lookup_imap. Qed.

(** X1.  The response has one element per timestamp, in the order of the
    timestamps, whatever the length of the list of closes; where the list
    of closes is too short the close is [null]. *)
Theorem stockData_follows_timestamps timestamps closePrices :
  length (stockData timestamps closePrices) = length timestamps ∧
  map timestamp (stockData timestamps closePrices) = timestamps ∧
  ∀ i d, (length closePrices ≤ i)%nat →
         stockData timestamps closePrices !! i = Some d → close d = VNull.
Proof.
  split; [apply length_imap|]. split.
  - apply list_eq. intros i. change (map ?f ?l) with (f <$> l).
    rewrite list_lookup_fmap, stockData_lookup.
    by destruct (timestamps !! i).
  - intros i d Hlen Hd. rewrite stockData_lookup in Hd.
    destruct (timestamps !! i) as [t|]; [|done]. injection Hd as <-. simpl.
    unfold at_index. by rewrite lookup_ge_None_2.
Qed.

(** X2.  Every close of the response is [null] or a truthy value: it is never
    [undefined], never [NaN] and never zero. *)
Theorem stockData_close_null_or_truthy timestamps closePrices d :
  d ∈ stockData timestamps closePrices →
  (close d = VNull ∨ ToBoolean (close d) = true) ∧
  close d ≠ VUndefined ∧ close d ≠ VNumber NaN ∧
  ∀ q, close d = VNumber (Fin q) → is_zero q = false.
Proof.
  intros Hd. apply list_elem_of_lookup in Hd as [i Hi].
  rewrite stockData_lookup in Hi.
  destruct (timestamps !! i) as [t|]; [|done]. injection Hi as <-. simpl.
  unfold or_else.
  destruct (ToBoolean (at_index closePrices i)) eqn:Htruthy.
  - split; [by right|]. repeat split.
    + intros Heq. by rewrite Heq in Htruthy.
    + intros Heq. by rewrite Heq in Htruthy.
    + intros q Heq. rewrite Heq in Htruthy. simpl in Htruthy.
      by apply negb_true_iff.
  - split; [by left|]. repeat split; try done.
Qed.

(** X3.  A finite close is passed through unchanged, except zero, which is
    reported as [null]. *)
Theorem stockData_zero_close_is_null timestamps closePrices i t q :
  timestamps !! i = Some t → closePrices !! i = Some (VNumber (Fin q)) →
  stockData timestamps closePrices !! i =
    Some {| timestamp := t;
            close := if is_zero q then VNull else VNumber (Fin q) |}.
Proof.
  intros Ht Hc. rewrite stockData_lookup, Ht. simpl. do 2 f_equal.
  unfold at_index. rewrite Hc. simpl. unfold or_else. simpl.
  by destruct (is_zero q).
Qed.

End ServerProps.

(** ** Properties of the chart data built by [StockCharts] *)

Module ChartDataFacts.

Import StockCharts StockChartsSpec App AppSpec AppFacts NumberFacts.

Section Facts.

Variable formatDate : number -> string.

Abbreviation dataPoint := (StockCharts.dataPoint formatDate).
Abbreviation chartData := (StockCharts.chartData formatDate).

Lemma fill_cons index acc etf query queries :
  fill index acc ((etf, query) :: queries) =
    fill index (match entryAt query index with
                | Some entry => <[symbolOf etf := close entry]> acc
                | None => acc
                end) queries.
Proof. done. Qed.

Lemma dataPoint_fill queries item index :
  dataPoint queries item index =
    fill index {["date" := VString (formatDate (timestamp item))]} queries.
Proof. done. Qed.

(** A property no query writes keeps the value it had. *)
Lemma fill_untouched index acc queries k :
  (∀ etf query, (etf, query) ∈ queries → symbolOf etf ≠ k) →
  fill index acc queries !! k = acc !! k.
Proof.
  revert acc. induction queries as [|[etf query] queries IH]; intros acc Hne;
    [done|].
  rewrite fill_cons, IH.
  - destruct (entryAt query index); [|done].
    rewrite lookup_insert_ne; [done|]. apply (Hne etf query), list_elem_of_here.
  - intros e q Hin. apply (Hne e q). by apply list_elem_of_further.
Qed.

(** Every entry of a chart point is the one it started with or the close
    of a query at that index. *)
Lemma fill_lookup_Some index acc queries k v :
  fill index acc queries !! k = Some v →
  acc !! k = Some v ∨
  ∃ etf query entry,
    (etf, query) ∈ queries ∧ entryAt query index = Some entry ∧
    symbolOf etf = k ∧ v = close entry.
Proof.
  revert acc. induction queries as [|[etf query] queries IH]; intros acc Hk;
    [by left|].
  rewrite fill_cons in Hk. apply IH in Hk as [Hk|Hk].
  - destruct (entryAt query index) as [entry|] eqn:He; [|by left].
    destruct (decide (symbolOf etf = k)) as [Heq|Hne].
    + rewrite Heq, lookup_insert_eq in Hk. injection Hk as <-.
      right. exists etf, query, entry. split; [apply list_elem_of_here|done].
    + rewrite lookup_insert_ne in Hk by done. by left.
  - destruct Hk as (e & q & entry & Hin & He & Hs & Hv). right.
    exists e, q, entry. split; [by apply list_elem_of_further|done].
Qed.

Lemma fill_keeps_is_Some index acc queries k :
  is_Some (acc !! k) → is_Some (fill index acc queries !! k).
Proof.
  revert acc. induction queries as [|[etf query] queries IH]; intros acc Hk;
    [done|].
  rewrite fill_cons. apply IH.
  destruct (entryAt query index); [|done].
  destruct (decide (symbolOf etf = k)) as [->|Hne].
  - rewrite lookup_insert_eq. eauto.
  - by rewrite lookup_insert_ne.
Qed.

(** A query that has an element at the index gives the point an entry. *)
Lemma fill_is_Some index acc queries etf query entry :
  (etf, query) ∈ queries → entryAt query index = Some entry →
  is_Some (fill index acc queries !! symbolOf etf).
Proof.
  revert acc. induction queries as [|[e q] queries IH]; intros acc Hin He.
  - by apply elem_of_nil in Hin.
  - rewrite fill_cons. apply elem_of_cons in Hin as [Heq|Hin].
    + injection Heq as <- <-. rewrite He.
      apply fill_keeps_is_Some. rewrite lookup_insert_eq. eauto.
    + by apply IH.
Qed.

(** With distinct chart keys, the entry of an instrument is the close of
    its own query. *)
Lemma fill_lookup_NoDup index acc queries etf query entry :
  NoDup (symbolOf <$> queries.*1) →
  (etf, query) ∈ queries → entryAt query index = Some entry →
  fill index acc queries !! symbolOf etf = Some (close entry).
Proof.
  revert acc. induction queries as [|[e q] queries IH]; intros acc Hnd Hin He.
  - by apply elem_of_nil in Hin.
  - rewrite fill_cons. simpl in Hnd. apply NoDup_cons in Hnd as [Hfresh Hnd].
    apply elem_of_cons in Hin as [Heq|Hin].
    + injection Heq as <- <-. rewrite He, fill_untouched.
      * by rewrite lookup_insert_eq.
      * intros e' q' Hin' Heq'. apply Hfresh. rewrite <- Heq'.
        apply list_elem_of_fmap. exists e'. split; [done|].
        apply list_elem_of_fmap. by exists (e', q').
    + by apply IH.
Qed.

Lemma entryAt_zero query index entry :
  entryAt query index = Some entry → is_Some (entryAt query 0).
Proof.
  unfold entryAt. destruct (data query) as [d|]; [|done]. simpl.
  destruct d; [by rewrite lookup_nil | eauto].
Qed.

Lemma entryAt_elem query index entry :
  entryAt query index = Some entry → ∃ d, data query = Some d ∧ entry ∈ d.
Proof.
  unfold entryAt. destruct (data query) as [d|]; [|done]. simpl.
  intros H. exists d. split; [done|]. by apply list_elem_of_lookup_2 in H.
Qed.

(** The points of [chartData], index by index. *)
Lemma chartData_Some queries points :
  chartData queries = Normal (Some points) →
  ∃ etf first rest items,
    queries = (etf, first) :: rest ∧ data first = Some items ∧
    points = imap (λ index item, dataPoint queries item index) items.
Proof.
  destruct queries as [|[etf first] rest]; [done|]. simpl.
  destruct (data first) as [items|] eqn:Hd; [|done]. simpl.
  intros H. injection H as <-. by exists etf, first, rest, items.
Qed.

Lemma chartData_lookup queries points i p :
  chartData queries = Normal (Some points) → points !! i = Some p →
  ∃ item, p = dataPoint queries item i.
Proof.
  intros Hc Hp.
  apply chartData_Some in Hc as (etf & first & rest & items & _ & _ & ->).
  rewrite list_lookup_imap in Hp.
  destruct (items !! i) as [item|]; [|done]. injection Hp as <-. eauto.
Qed.

Lemma chartData_head queries points i p :
  chartData queries = Normal (Some points) → points !! i = Some p →
  ∃ item, head points = Some (dataPoint queries item 0).
Proof.
  intros Hc Hp.
  apply chartData_Some in Hc as (etf & first & rest & items & _ & _ & ->).
  destruct items as [|item items]; [by destruct i|].
  by exists item.
Qed.

End Facts.

End ChartDataFacts.

Module StockChartsProps.

Import StockCharts StockChartsSpec App AppSpec AppFacts NumberFacts.
Import ChartDataFacts.

Lemma findValid_is_Some key (data : list (gmap string value)) point :
  point ∈ data → valid (get point key) = true →
  is_Some (findValid key data).
Proof.
  induction data as [|p rest IH]; intros Hin Hval.
  - by apply elem_of_nil in Hin.
  - simpl. destruct (valid (get p key)) eqn:Hp; [eauto|].
    apply elem_of_cons in Hin as [->|Hin]; [congruence | by apply IH].
Qed.

Lemma findValid_Some_elem key (data : list (gmap string value)) v :
  findValid key data = Some v →
  ∃ point, point ∈ data ∧ get point key = v ∧ valid v = true.
Proof.
  induction data as [|p rest IH]; [done|]. simpl.
  destruct (valid (get p key)) eqn:Hp.
  - intros H. injection H as <-. exists p. split; [apply list_elem_of_here|done].
  - intros H. apply IH in H as (q & Hq & Hrest). exists q.
    split; [by apply list_elem_of_further | done].
Qed.

Section Props.

Variable StringToNumber : string -> number.
Variable formatDate : number -> string.

Abbreviation ToNumber := (JS.ToNumber StringToNumber).
Abbreviation baseValuesFrom := (App.baseValuesFrom StringToNumber).
Abbreviation normalizePoint := (App.normalizePoint StringToNumber).
Abbreviation normalizeData := (App.normalizeData StringToNumber).
Abbreviation dataPoint := (StockCharts.dataPoint formatDate).
Abbreviation chartData := (StockCharts.chartData formatDate).
Abbreviation render := (StockCharts.render StringToNumber formatDate).

Lemma chart_keys_in_first queries points i p k :
  chartData queries = Normal (Some points) →
  points !! i = Some p → is_Some (p !! k) →
  ∃ first, head points = Some first ∧ is_Some (first !! k).
Proof.
  intros Hc Hp [v Hk].
  destruct (chartData_lookup formatDate _ _ _ _ Hc Hp) as [item ->].
  destruct (chartData_head formatDate _ _ _ _ Hc Hp) as [item0 Hhead].
  eexists. split; [exact Hhead|].
  rewrite dataPoint_fill in Hk |- *.
  apply fill_lookup_Some in Hk as [Hk|(etf & query & entry & Hin & He & <- & _)].
  - apply fill_keeps_is_Some.
    destruct (decide (k = "date")) as [->|Hne].
    + rewrite lookup_singleton_eq. eauto.
    + by rewrite lookup_singleton_ne in Hk.
  - apply entryAt_zero in He as [entry0 He0].
    by eapply fill_is_Some.
Qed.

(** X4.  In the chart data built from the queries, every property of any point
    is also a property of the first point. *)
Theorem chartData_keys_in_first queries points i p k :
  chartData queries = Normal (Some points) →
  points !! i = Some p → is_Some (p !! k) →
  ∃ first, head points = Some first ∧ is_Some (first !! k).
Proof.
  intros Hc Hp [v Hk].
  destruct (chartData_lookup formatDate _ _ _ _ Hc Hp) as [item ->].
  destruct (chartData_head formatDate _ _ _ _ Hc Hp) as [item0 Hhead].
  exists (dataPoint queries item0 0). split; [exact Hhead|].
  rewrite dataPoint_fill in Hk |- *.
  apply fill_lookup_Some in Hk as [Hk|(etf & query & entry & Hin & He & <- & _)].
  - apply fill_keeps_is_Some.
    destruct (decide (k = "date")) as [->|Hne].
    + rewrite lookup_singleton_eq. eauto.
    + by rewrite lookup_singleton_ne in Hk.
  - apply entryAt_zero in He as [entry0 He0].
    by eapply fill_is_Some.
Qed.

Lemma NoDup_symbol_inj (queries : list (string * Query)) e q e' q' :
  NoDup (symbolOf <$> queries.*1) →
  (e, q) ∈ queries → (e', q') ∈ queries → symbolOf e = symbolOf e' →
  (e, q) = (e', q').
Proof.
  induction queries as [|[e0 q0] queries IH]; intros Hnd Hin Hin' Hs.
  - by apply elem_of_nil in Hin.
  - simpl in Hnd. apply NoDup_cons in Hnd as [Hfresh Hnd].
    assert (Hmem : ∀ e1 q1, (e1, q1) ∈ queries →
                     symbolOf e1 ∈ symbolOf <$> queries.*1).
    { intros e1 q1 H1. apply list_elem_of_fmap. exists e1. split; [done|].
      apply list_elem_of_fmap. by exists (e1, q1). }
    apply elem_of_cons in Hin as [Heq|Hin];
      apply elem_of_cons in Hin' as [Heq'|Hin'].
    + congruence.
    + injection Heq as -> ->. exfalso. apply Hfresh. rewrite Hs. by eapply Hmem.
    + injection Heq' as -> ->. exfalso. apply Hfresh. rewrite <- Hs.
      by eapply Hmem.
    + by apply IH.
Qed.

(** X5.  When the chart keys of the instruments are distinct and none is
    [date], [chartData] has one point per element of the data of the first
    query; the point at an index carries the formatted timestamp of that
    element as [date] and, for every instrument, the close of its own query
    at that index, or no entry when that query has no element there. *)
Theorem chartData_entries queries etf0 first items :
  head queries = Some (etf0, first) → data first = Some items →
  NoDup (symbolOf <$> queries.*1) →
  (∀ etf query, (etf, query) ∈ queries → symbolOf etf ≠ "date") →
  ∃ points,
    chartData queries = Normal (Some points) ∧
    length points = length items ∧
    ∀ i item, items !! i = Some item →
      ∃ p, points !! i = Some p ∧
           p !! "date" = Some (VString (formatDate (timestamp item))) ∧
           ∀ etf query, (etf, query) ∈ queries →
                        p !! symbolOf etf = close <$> entryAt query i.
Proof.
  intros Hhead Hd Hnd Hdate.
  destruct queries as [|[e f] rest]; [done|]. injection Hhead as -> ->.
  eexists. split; [by simpl; rewrite Hd|].
  split; [by rewrite length_imap|].
  intros i item Hi. eexists. split; [by rewrite list_lookup_imap, Hi|].
  rewrite dataPoint_fill. split.
  - rewrite fill_untouched; [by rewrite lookup_singleton_eq | exact Hdate].
  - intros etf query Hin.
    destruct (entryAt query i) as [entry|] eqn:He.
    + change (close <$> Some entry) with (Some (close entry)).
      by apply (fill_lookup_NoDup _ _ _ etf query entry).
    + change (close <$> None) with (@None value).
      destruct (fill i _ _ !! symbolOf etf) as [v|] eqn:Hv; [|done].
      exfalso.
      apply fill_lookup_Some in Hv
        as [Hv|(e' & q' & entry' & Hin' & He' & Hs & _)].
      * rewrite lookup_singleton_ne in Hv; [done|].
        intros Heq. by apply (Hdate etf query).
      * assert (Heq : (e', q') = (etf, query))
          by (by apply (NoDup_symbol_inj ((etf0, first) :: rest))).
        injection Heq as -> ->. congruence.
Qed.

(** Every valid value of an instrument in the chart data is a close of a
    query. *)
Lemma chart_value_is_close queries points p k :
  chartData queries = Normal (Some points) → p ∈ points →
  k ≠ "date" → valid (get p k) = true →
  ∃ etf query d entry,
    (etf, query) ∈ queries ∧ data query = Some d ∧ entry ∈ d ∧
    get p k = close entry.
Proof.
  intros Hc Hp Hk Hval. apply list_elem_of_lookup in Hp as [i Hi].
  destruct (chartData_lookup formatDate _ _ _ _ Hc Hi) as [item ->].
  apply valid_is_Some in Hval as [v Hv].
  unfold get. rewrite Hv. simpl. rewrite dataPoint_fill in Hv.
  apply fill_lookup_Some in Hv
    as [Hv|(etf & query & entry & Hin & He & _ & ->)].
  - by rewrite lookup_singleton_ne in Hv.
  - apply entryAt_elem in He as (d & Hd & Hentry). by exists etf, query, d, entry.
Qed.

(** X6.  The chart data never contains a series that misses its base: whenever
    a point holds a valid value for an instrument, the scan of
    [normalizeData] records a base for that instrument. *)
Theorem chart_series_has_base queries points i p k :
  chartData queries = Normal (Some points) →
  points !! i = Some p → k ≠ "date" → valid (get p k) = true →
  ∃ first, head points = Some first ∧
           is_Some (baseValuesFrom first points !! k).
Proof.
  intros Hc Hp Hk Hval.
  destruct (chart_keys_in_first _ _ _ _ k Hc Hp) as (first & Hhead & Hin);
    [by apply valid_is_Some|].
  exists first. split; [done|].
  rewrite baseValuesFrom_lookup.
  rewrite bool_decide_eq_true_2 by (by apply elem_of_Object_keys).
  rewrite bool_decide_eq_true_2 by done.
  destruct (findValid_is_Some k points p) as [v Hv];
    [by apply list_elem_of_lookup_2 in Hp | done |].
  rewrite Hv. simpl. eauto.
Qed.

(** X7.  With closes as the server sends them ([null] or finite and non-zero),
    the normalized chart has, for every instrument, no entry where the
    close is [null] and a number that is never [NaN] everywhere else; at
    the first index with a close it is exactly 100. *)
Theorem server_chart_never_NaN queries points portfolio i p k :
  ServerQueries queries →
  chartData queries = Normal (Some points) →
  points !! i = Some p → k ≠ "date" → k ≠ "TOTAL" →
  ∃ out np,
    normalizeData points portfolio = Normal out ∧
    out !! i = Some np ∧
    (valid (get p k) = false → np !! k = None) ∧
    (valid (get p k) = true →
       ∃ n, np !! k = Some (VNumber n) ∧ n ≠ NaN) ∧
    (∀ v, FirstValidAt k points i v → np !! k = Some (VNumber (Fin 100))).
Proof.
  intros Hserver Hc Hp Hdate Htotal.
  assert (Hclose : ∀ p', p' ∈ points → valid (get p' k) = true →
            ∃ q, get p' k = VNumber (Fin q) ∧ is_zero q = false).
  { intros p' Hp' Hval.
    destruct (chart_value_is_close _ _ _ _ Hc Hp' Hdate Hval)
      as (etf & query & d & entry & Hin & Hd & Hentry & Heq).
    destruct (Hserver etf query d entry Hin Hd Hentry) as [Hnull|Hfin].
    - rewrite Heq, Hnull in Hval. done.
    - destruct Hfin as (q & Hq & Hz). exists q. by rewrite Heq. }
  destruct points as [|first rest]; [by rewrite lookup_nil in Hp|].
  eexists _, _. split; [apply normalizeData_cons|].
  split; [by apply map_lookup_Some|].
  assert (Hnorm : valid (get p k) = true →
            ∃ q b, get p k = VNumber (Fin q) ∧ is_zero b = false ∧
                   findValid k (first :: rest) = Some (VNumber (Fin b)) ∧
                   normalizePoint (totalInvestment portfolio)
                     (baseValuesFrom first (first :: rest)) portfolio p !! k
                   = Some (VNumber (mul (div (Fin q) (Fin b)) hundred))).
  { intros Hval.
    destruct (Hclose p) as (q & Hq & Hqz);
      [by apply list_elem_of_lookup_2 in Hp | done |].
    destruct (findValid_is_Some k (first :: rest) p) as [v0 Hv0];
      [by apply list_elem_of_lookup_2 in Hp | done |].
    destruct (findValid_Some_elem _ _ _ Hv0) as (p0 & Hp0 & Hget0 & Hval0).
    destruct (Hclose p0 Hp0) as (b & Hb & Hbz); [by rewrite Hget0|].
    exists q, b. split; [done|]. split; [done|].
    split; [by rewrite Hv0, <- Hget0, Hb|].
    rewrite normalizePoint_lookup_valid by done.
    destruct (chart_keys_in_first _ _ _ _ k Hc Hp) as (f & Hhead & Hin);
      [by apply valid_is_Some|].
    injection Hhead as <-.
    unfold get at 2. rewrite baseValuesFrom_lookup.
    rewrite bool_decide_eq_true_2 by (by apply elem_of_Object_keys).
    rewrite bool_decide_eq_true_2 by done.
    rewrite Hv0, <- Hget0, Hb, Hq. done. }
  split; [|split].
  - intros Habs. rewrite normalizePoint_lookup_ne by done.
    by apply normalizedValues_absent.
  - intros Hval. destruct (Hnorm Hval) as (q & b & _ & Hbz & _ & ->).
    destruct (rebase_finite q b Hbz) as (n & -> & _). by eexists.
  - intros v Hfirst.
    pose proof (findValid_FirstValidAt _ _ _ _ Hfirst) as Hfv.
    destruct Hfirst as [[p' [Hp' Hget]] [Hval _]].
    rewrite Hp in Hp'. injection Hp' as <-. rewrite <- Hget in Hval.
    destruct (Hnorm Hval) as (q & b & Hq & Hbz & Hb & ->).
    rewrite Hfv, <- Hget, Hq in Hb. injection Hb as <-.
    by rewrite rebase_self.
Qed.

(** X8.  Once no query is loading or in error, the component throws exactly
    when the first query has no data or an empty list (whatever the other
    queries hold); otherwise it renders one chart point and one normalized
    point per element of the data of the first query. *)
Theorem render_needs_first_query_data queries portfolio :
  existsb (λ q, isLoading q.2) queries = false →
  existsb (λ q, isError q.2) queries = false →
  match head queries ≫= (λ q, data q.2) with
  | Some (item :: items) =>
      ∃ points normalized prices yMin yMax,
        render queries portfolio =
          Normal (ChartsView (Some points) normalized prices yMin yMax) ∧
        length points = S (length items) ∧
        length normalized = S (length items)
  | _ => render queries portfolio = Throw TypeError
  end.
Proof.
  intros Hload Herr. unfold StockCharts.render. rewrite Hload, Herr.
  destruct queries as [|[etf first] rest]; [done|]. simpl.
  destruct (data first) as [[|item items]|] eqn:Hd; simpl; [done| |done].
  eexists _, _, _, _, _. split; [reflexivity|].
  by rewrite !length_cons, length_map, !length_imap.
Qed.

End Props.

(** ** The current prices and the price column of the table *)

Section Prices.

Variable StringToNumber : string -> number.

(** The loop of [currentPrices] from any accumulator, one step written
    with the last element of the data. *)
Lemma currentPrices_step (acc : gmap string value) etf query :
  match data query with
  | Some d =>
      if bool_decide (length d ≠ 0%nat)
      then match d !! (length d - 1)%nat with
           | Some entry => <[etf := close entry]> acc
           | None => acc
           end
      else acc
  | None => acc
  end =
  match lastEntry query with
  | Some entry => <[etf := close entry]> acc
  | None => acc
  end.
Proof.
  unfold lastEntry. destruct (data query) as [d|]; [|done]. simpl.
  rewrite last_lookup. destruct d as [|x d]; [done|].
  rewrite bool_decide_eq_true_2 by done. simpl.
  by rewrite Nat.sub_0_r.
Qed.

Lemma currentPrices_fold_untouched (acc : gmap string value)
    (queries : list (string * Query)) k :
  k ∉ queries.*1 →
  foldl (λ currentPrices '(etf, query),
           match data query with
           | Some d =>
               if bool_decide (length d ≠ 0%nat)
               then match d !! (length d - 1)%nat with
                    | Some entry => <[etf := close entry]> currentPrices
                    | None => currentPrices
                    end
               else currentPrices
           | None => currentPrices
           end) acc queries !! k = acc !! k.
Proof.
  revert acc. induction queries as [|[etf query] queries IH]; intros acc Hk;
    [done|].
  simpl in Hk. apply not_elem_of_cons in Hk as [Hne Hk].
  cbn [foldl]. rewrite IH, currentPrices_step by done.
  destruct (lastEntry query); [|done]. by rewrite lookup_insert_ne.
Qed.

Lemma currentPrices_fold_lookup (acc : gmap string value)
    (queries : list (string * Query)) etf query :
  NoDup queries.*1 → (etf, query) ∈ queries →
  foldl (λ currentPrices '(etf, query),
           match data query with
           | Some d =>
               if bool_decide (length d ≠ 0%nat)
               then match d !! (length d - 1)%nat with
                    | Some entry => <[etf := close entry]> currentPrices
                    | None => currentPrices
                    end
               else currentPrices
           | None => currentPrices
           end) acc queries !! etf =
    match lastEntry query with
    | Some entry => Some (close entry)
    | None => acc !! etf
    end.
Proof.
  revert acc. induction queries as [|[e q] queries IH]; intros acc Hnd Hin.
  - by apply elem_of_nil in Hin.
  - simpl in Hnd. apply NoDup_cons in Hnd as [Hfresh Hnd].
    cbn [foldl]. apply elem_of_cons in Hin as [Heq|Hin].
    + injection Heq as <- <-.
      rewrite currentPrices_fold_untouched, currentPrices_step by done.
      destruct (lastEntry query) as [entry|]; [|done].
      by rewrite lookup_insert_eq.
    + rewrite IH, currentPrices_step by done.
      destruct (lastEntry query); [done|].
      destruct (lastEntry q); [|done].
      rewrite lookup_insert_ne; [done|]. intros ->. apply Hfresh.
      apply list_elem_of_fmap. by exists (etf, query).
Qed.

(** X9.  With distinct instruments, [currentPrices] holds for every instrument
    the close of the last element of its query, and no entry when the
    query has no data or an empty list; it holds nothing else. *)
Theorem currentPrices_last_close queries :
  NoDup queries.*1 →
  (∀ etf query, (etf, query) ∈ queries →
     currentPrices queries !! etf = close <$> lastEntry query) ∧
  (∀ k, k ∉ queries.*1 → currentPrices queries !! k = None).
Proof.
  intros Hnd. split.
  - intros etf query Hin. unfold currentPrices.
    rewrite (currentPrices_fold_lookup _ _ etf query) by done.
    by destruct (lastEntry query).
  - intros k Hk. unfold currentPrices.
    by rewrite currentPrices_fold_untouched.
Qed.

Lemma String_replace_AX_cons c s :
  c ≠ "."%char →
  String_replace ".AX" "" (String c s) = String c (String_replace ".AX" "" s).
Proof.
  intros Hc. cbn [String_replace String.prefix].
  destruct (Ascii.ascii_dec "." c) as [Heq|Hne]; [by subst c|done].
Qed.

(** X10.  For an instrument name without a dot, removing [.AX] from the full
    symbol gives the name, so that adding [.AX] to the chart key gives the
    full symbol back; a name without a dot, such as [CASH], is left as it
    is. *)
Theorem symbolOf_strips_suffix name :
  dotFree name →
  symbolOf (name +:+ ".AX") = name ∧
  symbolOf (name +:+ ".AX") +:+ ".AX" = name +:+ ".AX" ∧
  symbolOf name = name.
Proof.
  intros Hfree.
  assert (H1 : symbolOf (name +:+ ".AX") = name).
  { unfold symbolOf. induction name as [|c name IH]; [done|].
    destruct Hfree as [Hc Hfree].
    change (String c name +:+ ".AX") with (String c (name +:+ ".AX")).
    rewrite String_replace_AX_cons by done. by rewrite IH. }
  split; [done|]. split; [by rewrite H1|].
  unfold symbolOf. induction name as [|c name IH]; [done|].
  destruct Hfree as [Hc Hfree].
  rewrite String_replace_AX_cons by done. rewrite IH; [done|done|].
  unfold symbolOf in H1.
  change (String c name +:+ ".AX") with (String c (name +:+ ".AX")) in H1.
  rewrite String_replace_AX_cons in H1 by done. by injection H1.
Qed.

(** X11.  The price shown for a holding named after an instrument is the last
    close of the query of that instrument, and 0 when that query has no
    data or its last close is [null] or zero: the table looks the price up
    under the chart key followed by [.AX], which is the key used by
    [currentPrices] when the full symbol is the chart key followed by
    [.AX]. *)
Theorem holding_price_is_last_close queries etf query total h :
  NoDup queries.*1 → (etf, query) ∈ queries →
  symbol h = symbolOf etf → symbolOf etf +:+ ".AX" = etf →
  symbolOf etf ≠ "CASH" →
  PortfolioManager.rowPrice
    (PortfolioManager.holdingRow StringToNumber
       (currentPrices queries) total h) =
    match lastEntry query with
    | Some entry => or_else (close entry) (VNumber zero)
    | None => VNumber zero
    end.
Proof.
  intros Hnd Hin Hsym Hround Hcash.
  unfold PortfolioManager.holdingRow. cbn [PortfolioManager.rowPrice].
  rewrite bool_decide_eq_false_2 by (by rewrite Hsym).
  unfold PortfolioManager.priceOrZero, get. rewrite Hsym, Hround.
  unfold currentPrices.
  rewrite (currentPrices_fold_lookup _ _ etf query) by done.
  by destruct (lastEntry query).
Qed.

End Prices.

End StockChartsProps.

(** ** Properties of the [y] domain *)

Module YDomainProps.

Import StockCharts StockChartsSpec NumberFacts.

Lemma Math_min_NaN_r x : Math_min x NaN = NaN.
Proof. by destruct x. Qed.

Lemma Math_max_NaN_r x : Math_max x NaN = NaN.
Proof. by destruct x. Qed.

Lemma yDomainPoint_entries acc point :
  yDomainPoint acc point = yDomainEntries acc (map_to_list point).
Proof. done. Qed.

Lemma yDomainEntries_cons acc k v entries :
  yDomainEntries acc ((k, v) :: entries) =
    yDomainEntries
      (match v with
       | VNumber n =>
           if bool_decide (k ≠ "date")
           then {| min := Math_min (min acc) n; max := Math_max (max acc) n |}
           else acc
       | _ => acc
       end) entries.
Proof. done. Qed.

Lemma yDomainEntries_app acc l1 l2 :
  yDomainEntries acc (l1 ++ l2) = yDomainEntries (yDomainEntries acc l1) l2.
Proof. apply foldl_app. Qed.

(** [NaN] bounds stay [NaN]. *)
Lemma yDomainEntries_poisoned acc entries :
  poisoned acc → poisoned (yDomainEntries acc entries).
Proof.
  revert acc. induction entries as [|[k v] entries IH]; intros acc Hacc;
    [done|].
  rewrite yDomainEntries_cons. apply IH.
  destruct v as [| |n|]; try done. case_bool_decide; [|done].
  destruct Hacc as [Hmin Hmax]. split; simpl; by rewrite ?Hmin, ?Hmax.
Qed.

Lemma yDomainEntries_NaN acc entries k :
  (k, VNumber NaN) ∈ entries → k ≠ "date" →
  poisoned (yDomainEntries acc entries).
Proof.
  intros Hin Hk. apply list_elem_of_split in Hin as (l1 & l2 & ->).
  rewrite yDomainEntries_app, yDomainEntries_cons.
  apply yDomainEntries_poisoned.
  rewrite bool_decide_eq_true_2 by done.
  split; simpl; [apply Math_min_NaN_r | apply Math_max_NaN_r].
Qed.

Lemma yDomain_fold_poisoned acc (data : list (gmap string value)) :
  poisoned acc → poisoned (foldl yDomainPoint acc data).
Proof.
  revert acc. induction data as [|p data IH]; intros acc Hacc; [done|].
  simpl. apply IH. rewrite yDomainPoint_entries.
  by apply yDomainEntries_poisoned.
Qed.

Lemma yDomain_poisoned (data : list (gmap string value)) p k :
  p ∈ data → p !! k = Some (VNumber NaN) → k ≠ "date" →
  poisoned (yDomain data).
Proof.
  intros Hp Hk Hdate.
  unfold yDomain. apply list_elem_of_split in Hp as (l1 & l2 & ->).
  rewrite foldl_app. simpl. apply yDomain_fold_poisoned.
  rewrite yDomainPoint_entries. apply (yDomainEntries_NaN _ _ k); [|done].
  by apply elem_of_map_to_list.
Qed.

(** X12.  A single [NaN] among the numbers of the normalized chart, in any series
    or in [TOTAL], makes both bounds of the [y] domain [NaN], and with them
    [yMin] and [yMax]. *)
Theorem yDomain_NaN_poisons (data : list (gmap string value)) p k :
  p ∈ data → p !! k = Some (VNumber NaN) → k ≠ "date" →
  min (yDomain data) = NaN ∧ max (yDomain data) = NaN ∧
  Math_floor (min (yDomain data)) = NaN ∧
  Math_ceil (max (yDomain data)) = NaN.
Proof.
  intros Hp Hk Hdate.
  destruct (yDomain_poisoned data p k Hp Hk Hdate) as [Hmin Hmax].
  by rewrite Hmin, Hmax.
Qed.

Lemma ext_le_trans x y z : ext_le x y → ext_le y z → ext_le x z.
Proof.
  destruct x as [| | |a], y as [| | |b], z as [| | |c]; simpl; try done.
  apply Qle_trans.
Qed.

(** One step of the lower bound with a finite number. *)
Lemma Math_min_finite m q :
  lowerOK m →
  lowerOK (Math_min m (Fin q)) ∧
  ext_le (Math_min m (Fin q)) m ∧ ext_le (Math_min m (Fin q)) (Fin q).
Proof.
  intros [->|[a ->]]; simpl.
  - split; [right; eauto|]. split; [done | apply Qle_refl].
  - destruct (Qle_bool a q) eqn:Hle; simpl.
    + apply Qle_bool_iff in Hle. split; [right; eauto|].
      split; [apply Qle_refl | done].
    + split; [right; eauto|]. split; [|apply Qle_refl].
      apply Qlt_le_weak, Qnot_le_lt. intros H.
      apply Qle_bool_iff in H. congruence.
Qed.

(** One step of the upper bound with a finite number. *)
Lemma Math_max_finite m q :
  upperOK m →
  upperOK (Math_max m (Fin q)) ∧
  ext_le m (Math_max m (Fin q)) ∧ ext_le (Fin q) (Math_max m (Fin q)).
Proof.
  intros [->|[a ->]]; simpl.
  - split; [right; eauto|]. split; [done | apply Qle_refl].
  - destruct (Qle_bool q a) eqn:Hle; simpl.
    + apply Qle_bool_iff in Hle. split; [right; eauto|].
      split; [apply Qle_refl | done].
    + split; [right; eauto|]. split; [|apply Qle_refl].
      apply Qlt_le_weak, Qnot_le_lt. intros H.
      apply Qle_bool_iff in H. congruence.
Qed.

Lemma ext_le_refl_lower m : lowerOK m → ext_le m m.
Proof. intros [->|[a ->]]; simpl; [done | apply Qle_refl]. Qed.

Lemma ext_le_refl_upper m : upperOK m → ext_le m m.
Proof. intros [->|[a ->]]; simpl; [done | apply Qle_refl]. Qed.

Lemma finiteEntries_cons k v entries :
  finiteEntries ((k, v) :: entries) → finiteEntries entries.
Proof. intros H k' n Hin. apply H. by apply list_elem_of_further. Qed.

(** Over finite entries the lower bound only goes down and the upper bound
    only goes up, and neither becomes [NaN]. *)
Lemma yDomainEntries_monotone acc entries :
  lowerOK (min acc) → upperOK (max acc) → finiteEntries entries →
  lowerOK (min (yDomainEntries acc entries)) ∧
  upperOK (max (yDomainEntries acc entries)) ∧
  ext_le (min (yDomainEntries acc entries)) (min acc) ∧
  ext_le (max acc) (max (yDomainEntries acc entries)).
Proof.
  revert acc. induction entries as [|[k v] entries IH]; intros acc Hlo Hhi Hfin.
  - simpl. repeat split; try done;
      [by apply ext_le_refl_lower | by apply ext_le_refl_upper].
  - rewrite yDomainEntries_cons.
    pose proof (finiteEntries_cons _ _ _ Hfin) as Hfin'.
    destruct v as [| |n|]; try by apply IH.
    case_bool_decide as Hk; [|by apply IH].
    destruct (Hfin k n) as [q ->]; [apply list_elem_of_here | done |].
    destruct (Math_min_finite (min acc) q Hlo) as (Hlo' & Hle1 & _).
    destruct (Math_max_finite (max acc) q Hhi) as (Hhi' & Hle2 & _).
    destruct (IH {| min := Math_min (min acc) (Fin q);
                    max := Math_max (max acc) (Fin q) |} Hlo' Hhi' Hfin')
      as (H1 & H2 & H3 & H4).
    repeat split; try done.
    + by eapply ext_le_trans.
    + by eapply ext_le_trans.
Qed.

(** Every finite entry lies between the bounds. *)
Lemma yDomainEntries_covers acc entries k q :
  lowerOK (min acc) → upperOK (max acc) → finiteEntries entries →
  (k, VNumber (Fin q)) ∈ entries → k ≠ "date" →
  ext_le (min (yDomainEntries acc entries)) (Fin q) ∧
  ext_le (Fin q) (max (yDomainEntries acc entries)).
Proof.
  intros Hlo Hhi Hfin Hin Hk.
  apply list_elem_of_split in Hin as (l1 & l2 & ->).
  rewrite yDomainEntries_app, yDomainEntries_cons.
  rewrite bool_decide_eq_true_2 by done.
  assert (Hfin1 : finiteEntries l1).
  { intros k' n Hin'. apply Hfin. apply elem_of_app. by left. }
  assert (Hfin2 : finiteEntries l2).
  { intros k' n Hin'. apply Hfin. apply elem_of_app. right.
    by apply list_elem_of_further. }
  destruct (yDomainEntries_monotone acc l1 Hlo Hhi Hfin1)
    as (Hlo1 & Hhi1 & _ & _).
  destruct (Math_min_finite _ q Hlo1) as (Hlo' & _ & Hle1).
  destruct (Math_max_finite _ q Hhi1) as (Hhi' & _ & Hle2).
  destruct (yDomainEntries_monotone
              {| min := Math_min (min (yDomainEntries acc l1)) (Fin q);
                 max := Math_max (max (yDomainEntries acc l1)) (Fin q) |}
              l2 Hlo' Hhi' Hfin2) as (_ & _ & H3 & H4).
  split; by eapply ext_le_trans.
Qed.

Lemma finiteData_entries data p :
  finiteData data → p ∈ data → finiteEntries (map_to_list p).
Proof.
  intros Hfin Hp k n Hin Hk. apply elem_of_map_to_list in Hin.
  by apply (Hfin p k n).
Qed.

Lemma yDomain_fold_monotone acc (data : list (gmap string value)) :
  lowerOK (min acc) → upperOK (max acc) → finiteData data →
  lowerOK (min (foldl yDomainPoint acc data)) ∧
  upperOK (max (foldl yDomainPoint acc data)) ∧
  ext_le (min (foldl yDomainPoint acc data)) (min acc) ∧
  ext_le (max acc) (max (foldl yDomainPoint acc data)).
Proof.
  revert acc. induction data as [|p data IH]; intros acc Hlo Hhi Hfin.
  - simpl. repeat split; try done;
      [by apply ext_le_refl_lower | by apply ext_le_refl_upper].
  - cbn [foldl]. rewrite yDomainPoint_entries.
    destruct (yDomainEntries_monotone acc (map_to_list p) Hlo Hhi)
      as (Hlo' & Hhi' & Hle1 & Hle2).
    { apply (finiteData_entries (p :: data)); [done | apply list_elem_of_here]. }
    destruct (IH (yDomainEntries acc (map_to_list p)) Hlo' Hhi')
      as (H1 & H2 & H3 & H4).
    { intros p' k n Hin. apply Hfin. by apply list_elem_of_further. }
    repeat split; try done; by eapply ext_le_trans.
Qed.

(** X13.  When every number of the normalized chart is finite, [yMin] and [yMax]
    are integers and every number of the chart lies between them. *)
Theorem yDomain_bounds (data : list (gmap string value)) p k q :
  finiteData data →
  p ∈ data → p !! k = Some (VNumber (Fin q)) → k ≠ "date" →
  ∃ lo hi : Z,
    Math_floor (min (yDomain data)) = Fin (inject_Z lo) ∧
    Math_ceil (max (yDomain data)) = Fin (inject_Z hi) ∧
    (inject_Z lo <= q)%Q ∧ (q <= inject_Z hi)%Q.
Proof.
  intros Hfin Hp Hk Hdate. unfold yDomain.
  pose proof Hp as Hsplit.
  apply list_elem_of_split in Hsplit as (l1 & l2 & ->).
  assert (Hfin1 : finiteData l1).
  { intros p' k' n Hin. apply Hfin. apply elem_of_app. by left. }
  assert (Hfin2 : finiteData l2).
  { intros p' k' n Hin. apply Hfin. apply elem_of_app. right.
    by apply list_elem_of_further. }
  rewrite foldl_app. cbn [foldl].
  set (init := {| min := PInf; max := NInf |}).
  destruct (yDomain_fold_monotone init l1) as (Hlo1 & Hhi1 & _ & _);
    [by left | by left | done |].
  set (acc1 := foldl yDomainPoint init l1) in *.
  pose proof (finiteData_entries _ p Hfin Hp) as Hfinp.
  destruct (yDomainEntries_monotone acc1 (map_to_list p) Hlo1 Hhi1 Hfinp)
    as (Hlo2 & Hhi2 & _ & _).
  destruct (yDomainEntries_covers acc1 (map_to_list p) k q Hlo1 Hhi1 Hfinp)
    as (Hmin & Hmax); [by apply elem_of_map_to_list | done |].
  rewrite yDomainPoint_entries.
  set (acc2 := yDomainEntries acc1 (map_to_list p)) in *.
  destruct (yDomain_fold_monotone acc2 l2 Hlo2 Hhi2 Hfin2)
    as (Hlo3 & Hhi3 & Hle3 & Hle4).
  set (acc3 := foldl yDomainPoint acc2 l2) in *.
  pose proof (ext_le_trans _ _ _ Hle3 Hmin) as Hlow.
  pose proof (ext_le_trans _ _ _ Hmax Hle4) as Hhigh.
  destruct Hlo3 as [Hlo3|[a Ha]]; [by rewrite Hlo3 in Hlow|].
  destruct Hhi3 as [Hhi3|[b Hb]]; [by rewrite Hhi3 in Hhigh|].
  rewrite Ha in Hlow |- *. rewrite Hb in Hhigh |- *. simpl in Hlow, Hhigh.
  exists (Qfloor a), (Qceiling b). repeat split.
  - eapply Qle_trans; [apply Qfloor_le | done].
  - eapply Qle_trans; [done | apply Qle_ceiling].
Qed.

End YDomainProps.

(** ** The portfolio of the first load *)

Module InitialPortfolioProps.

Import StockCharts StockChartsSpec App AppSpec AppFacts NumberFacts.
Import YDomainProps.

Lemma sum_of_zero_shares (l : list PortfolioHolding) :
  Forall (λ h, shares h = zero) l →
  foldl (λ sum h, add sum (shares h)) zero l = zero.
Proof.
  induction 1 as [|h l Hh _ IH]; [done|]. simpl. by rewrite Hh.
Qed.

Lemma initialPortfolio_shares etfList now h :
  h ∈ holdings (initialPortfolio etfList now) → shares h = zero.
Proof.
  unfold initialPortfolio. simpl. intros Hin.
  apply elem_of_app in Hin as [Hin|Hin].
  - change (map ?f ?l) with (f <$> l) in Hin.
    by apply list_elem_of_fmap in Hin as (s & -> & _).
  - apply elem_of_cons in Hin as [->|Hin]; [done|].
    by apply elem_of_nil in Hin.
Qed.

Lemma totalInvestment_initialPortfolio etfList now :
  totalInvestment (initialPortfolio etfList now) = zero.
Proof.
  unfold totalInvestment. apply sum_of_zero_shares, Forall_forall.
  intros h Hin. apply list_elem_of_filter in Hin as [_ Hin].
  by apply (initialPortfolio_shares etfList now).
Qed.

Lemma initialPortfolio_holding etfList now etf :
  etf ∈ etfList →
  {| symbol := symbolOf etf; shares := zero; currentPrice := None |}
    ∈ holdings (initialPortfolio etfList now).
Proof.
  intros Hin. unfold initialPortfolio. simpl. apply elem_of_app. left.
  change (map ?f ?l) with (f <$> l). apply list_elem_of_fmap. by exists etf.
Qed.

Section Props.

Variable StringToNumber : string -> number.
Variable formatDate : number -> string.

Abbreviation normalizePoint := (App.normalizePoint StringToNumber).
Abbreviation normalizedValues := (App.normalizedValues StringToNumber).
Abbreviation weightedTotal := (App.weightedTotal StringToNumber).
Abbreviation normalizeData := (App.normalizeData StringToNumber).
Abbreviation chartData := (StockCharts.chartData formatDate).
Abbreviation render := (StockCharts.render StringToNumber formatDate).

(** With a zero divisor, a zero-share holding that has a value at the
    point makes the total of the point [NaN]. *)
Lemma normalizePoint_TOTAL_NaN bv portfolio point h :
  h ∈ holdings portfolio → symbol h ≠ "CASH" → symbol h ≠ "date" →
  shares h = zero → valid (get point (symbol h)) = true →
  normalizePoint zero bv portfolio point !! "TOTAL" = Some (VNumber NaN).
Proof.
  intros Hin Hcash Hdate Hs Hval.
  rewrite normalizePoint_lookup_TOTAL. do 2 f_equal.
  assert (Hnp : ∃ n, normalizedValues bv point !! symbol h
                     = Some (VNumber n)).
  { rewrite normalizedValues_lookup.
    rewrite bool_decide_eq_false_2, Hval by done. eauto. }
  destruct Hnp as [n Hn].
  apply (weightedTotal_NaN _ _ _ _ h); try done.
  - unfold get. by rewrite Hn.
  - rewrite Hs. change (div zero zero) with NaN. apply mul_NaN_r.
Qed.

(** X14.  On first load, when nothing is saved, every share is zero: as soon as
    one configured instrument has a close at some index, the [TOTAL] of
    that point is [NaN] and the component hands [NaN] to the chart as
    both bounds of its [y] axis. *)
Theorem first_load_axis_is_NaN queries now points i p etf query :
  existsb (λ q, isLoading q.2) queries = false →
  existsb (λ q, isError q.2) queries = false →
  chartData queries = Normal (Some points) → points !! i = Some p →
  (etf, query) ∈ queries → valid (get p (symbolOf etf)) = true →
  symbolOf etf ≠ "CASH" → symbolOf etf ≠ "date" →
  ∃ normalized prices np,
    render queries (initialPortfolio queries.*1 now) =
      Normal (ChartsView (Some points) normalized prices NaN NaN) ∧
    normalized !! i = Some np ∧ np !! "TOTAL" = Some (VNumber NaN).
Proof.
  intros Hload Herr Hc Hp Hin Hval Hcash Hdate.
  unfold StockCharts.render. rewrite Hload, Herr, Hc.
  cbn [mbind completion_bind default id].
  destruct points as [|first rest]; [by rewrite lookup_nil in Hp|].
  rewrite normalizeData_cons. cbn [mbind completion_bind].
  rewrite totalInvestment_initialPortfolio.
  set (portfolio := initialPortfolio queries.*1 now).
  set (bv := App.baseValuesFrom StringToNumber first (first :: rest)).
  assert (Hh : {| symbol := symbolOf etf; shares := zero;
                  currentPrice := None |} ∈ holdings portfolio).
  { apply initialPortfolio_holding, list_elem_of_fmap. by exists (etf, query). }
  assert (Htotal : normalizePoint zero bv portfolio p !! "TOTAL"
                   = Some (VNumber NaN)).
  { by apply (normalizePoint_TOTAL_NaN _ _ _ _ Hh). }
  assert (Hnp : map (normalizePoint zero bv portfolio) (first :: rest) !! i
                = Some (normalizePoint zero bv portfolio p))
    by (by apply map_lookup_Some).
  destruct (yDomain_poisoned
              (map (normalizePoint zero bv portfolio) (first :: rest))
              (normalizePoint zero bv portfolio p) "TOTAL")
    as (Hlo & Hhi); [by apply list_elem_of_lookup_2 in Hnp|done|done|].
  rewrite Hlo, Hhi. eexists _, _, _. split; [reflexivity|]. by split.
Qed.

End Props.

End InitialPortfolioProps.

(** ** Further properties of the holdings ledger *)

Module LedgerProps.

Import PortfolioManager PortfolioManagerSpec PortfolioManagerProps.
Import App AppFacts NumberFacts.

(** The holdings after an update. *)
Lemma handleSharesChange_holdings now s sh prev :
  ∃ next,
    handleSharesChange now s sh prev = Normal next ∧
    lastUpdated next = now ∧
    holdings next =
      (λ h, if bool_decide (symbol h = s)
            then {| symbol := symbol h; shares := Math_max zero sh;
                    currentPrice := currentPrice h |}
            else h) <$> holdings prev.
Proof. by eexists. Qed.

(** X15.  A second update of the same symbol overwrites the first one entirely:
    the result is the one of the second update alone. *)
Theorem handleSharesChange_last_write_wins now1 now2 s sh1 sh2 prev :
  ∃ mid,
    handleSharesChange now1 s sh1 prev = Normal mid ∧
    handleSharesChange now2 s sh2 mid = handleSharesChange now2 s sh2 prev.
Proof.
  eexists. split; [done|]. unfold handleSharesChange. simpl. do 2 f_equal.
  change (map ?f ?l) with (f <$> l). rewrite <- list_fmap_compose.
  apply list_fmap_ext. intros i h _. simpl.
  destruct (bool_decide (symbol h = s)) eqn:Hs; simpl; by rewrite Hs.
Qed.

(** X16.  Updates of two different symbols can be applied in either order. *)
Theorem handleSharesChange_commutes now s1 s2 sh1 sh2 prev :
  s1 ≠ s2 →
  ∃ a b,
    handleSharesChange now s1 sh1 prev = Normal a ∧
    handleSharesChange now s2 sh2 prev = Normal b ∧
    handleSharesChange now s2 sh2 a = handleSharesChange now s1 sh1 b.
Proof.
  intros Hne. eexists _, _. split; [done|]. split; [done|].
  unfold handleSharesChange. simpl. do 2 f_equal.
  change (map ?f ?l) with (f <$> l). rewrite <- !list_fmap_compose.
  apply list_fmap_ext. intros i h _.
  unfold compose.
  repeat (case_bool_decide; cbn [symbol] in *); congruence.
Qed.

Lemma Math_max_zero_nonneg x : ∃ q, Math_max zero (Fin x) = Fin q ∧ (0 <= q)%Q.
Proof.
  unfold Math_max, zero, gt. destruct (Qle_bool x 0) eqn:Hle; simpl.
  - exists 0%Q. split; [done | apply Qle_refl].
  - exists x. split; [done|]. apply Qlt_le_weak, Qnot_le_lt. intros H.
    apply Qle_bool_iff in H. congruence.
Qed.

(** X17.  Updates with finite numbers keep every holding at a finite,
    non-negative number of shares. *)
Theorem handleSharesChange_keeps_shares_nonneg now s x prev :
  Forall NonNegShares (holdings prev) →
  ∃ next,
    handleSharesChange now s (Fin x) prev = Normal next ∧
    Forall NonNegShares (holdings next).
Proof.
  intros Hall. eexists. split; [done|]. simpl.
  change (map ?f ?l) with (f <$> l). apply Forall_fmap.
  eapply Forall_impl; [exact Hall|]. intros h Hh. simpl.
  case_bool_decide; [|done]. apply Math_max_zero_nonneg.
Qed.

Section Chart.

Variable StringToNumber : string -> number.

Abbreviation normalizeData := (App.normalizeData StringToNumber).

(** [normalizeData] reads the portfolio through its non-CASH holdings
    only. *)
Lemma normalizeData_nonCash data p1 p2 :
  nonCash p1 = nonCash p2 → normalizeData data p1 = normalizeData data p2.
Proof.
  intros Heq. unfold App.normalizeData, totalInvestment.
  destruct (head data) as [first|]; [|done]. rewrite Heq. do 2 f_equal.
  unfold App.normalizePoint, App.weightedTotal. by rewrite Heq.
Qed.

(** X18.  Changing the cash balance never changes the normalized chart, its
    [TOTAL] included. *)
Theorem cash_update_keeps_chart now sh prev data :
  ∃ next,
    handleSharesChange now "CASH" sh prev = Normal next ∧
    normalizeData data next = normalizeData data prev.
Proof.
  eexists. split; [done|]. apply normalizeData_nonCash.
  unfold nonCash. simpl.
  induction (holdings prev) as [|h l IH]; [done|]. simpl.
  destruct (decide (symbol h = "CASH")) as [Hc|Hc].
  - rewrite (bool_decide_eq_true_2 _ Hc).
    rewrite !filter_cons_False by (simpl; by intros H; apply H). done.
  - rewrite (bool_decide_eq_false_2 _ Hc).
    rewrite !filter_cons_True by done. by rewrite IH.
Qed.

End Chart.

End LedgerProps.

(** ** Further properties of the valuation table *)

Module ValuationProps.

Import PortfolioManager PortfolioManagerSpec PortfolioManagerProps.
Import NumberFacts.

Lemma gt_zero_Fin q : gt (Fin q) zero = true ↔ (0 < q)%Q.
Proof.
  simpl. rewrite negb_true_iff. split.
  - intros H. apply Qnot_le_lt. intros Hle. apply Qle_bool_iff in Hle.
    congruence.
  - intros H. destruct (Qle_bool q 0) eqn:Hle; [|done].
    apply Qle_bool_iff in Hle. exfalso. by apply (Qlt_not_le _ _ H).
Qed.

Lemma add_nonneg_pos a b :
  nonneg a → gt b zero = true → gt (add a b) zero = true.
Proof.
  destruct a as [| | |x], b as [| | |y]; simpl; try done.
  intros Hx Hy. apply (gt_zero_Fin (Qred (x + y))). apply gt_zero_Fin in Hy.
  rewrite Qred_correct.
  apply Qlt_le_trans with (y := (0 + y)%Q); [by rewrite Qplus_0_l|].
  by apply Qplus_le_compat; [|apply Qle_refl].
Qed.

Lemma sum_positive_items (l : list PieItem) acc :
  Forall (λ item, gt (pieValue item) zero = true) l →
  nonneg acc →
  gt (foldl (λ sum item, add sum (pieValue item)) acc l) zero = true ↔
  gt acc zero = true ∨ l ≠ [].
Proof.
  intros Hall. revert acc.
  induction Hall as [|item l Hitem _ IH]; intros acc Hacc; simpl.
  - split; [by left | by intros [?|?]].
  - rewrite IH by (apply add_nonneg; [done | by apply gt_zero_nonneg]).
    split; [by right|]. intros _. left. by apply add_nonneg_pos.
Qed.

Section Props.

Variable StringToNumber : string -> number.
Variable currentPrices : gmap string value.

Abbreviation ToNumber := (JS.ToNumber StringToNumber).
Abbreviation holdingValue :=
  (PortfolioManagerSpec.holdingValue StringToNumber currentPrices).
Abbreviation pieData :=
  (PortfolioManager.pieData StringToNumber currentPrices).
Abbreviation totalValue :=
  (PortfolioManager.totalValue StringToNumber currentPrices).
Abbreviation holdingRow :=
  (PortfolioManager.holdingRow StringToNumber currentPrices).
Abbreviation holdingRows :=
  (PortfolioManager.holdingRows StringToNumber currentPrices).
Abbreviation piePercent := PortfolioManagerSpec.piePercent.

Lemma pieData_holdingValue portfolio :
  pieData portfolio =
    filter (λ item, gt (pieValue item) zero = true)
      ((λ h, {| name := symbol h; pieValue := holdingValue h |})
         <$> holdings portfolio).
Proof. done. Qed.

(** X19.  Whatever the holdings and the prices, [NaN] and negative numbers
    included, the total of the table is zero, a positive finite number or
    [+Infinity], never [NaN] and never negative; it is positive exactly
    when some holding has a positive value. *)
Theorem totalValue_never_NaN_nor_negative portfolio :
  nonneg (totalValue portfolio) ∧
  (gt (totalValue portfolio) zero = true ↔
   ∃ h, h ∈ holdings portfolio ∧ gt (holdingValue h) zero = true).
Proof.
  split; [apply totalValue_nonneg|].
  unfold PortfolioManager.totalValue.
  rewrite sum_positive_items.
  - rewrite pieData_holdingValue. split.
    + intros [H|H]; [done|].
      destruct (filter _ _) as [|item l] eqn:Hf; [done|].
      assert (Hin : item ∈ item :: l) by apply list_elem_of_here.
      rewrite <- Hf in Hin. apply list_elem_of_filter in Hin as [Hpos Hin].
      apply list_elem_of_fmap in Hin as (h & -> & Hh). by exists h.
    + intros (h & Hh & Hpos). right. intros Hnil.
      assert (Hin : {| name := symbol h; pieValue := holdingValue h |}
                    ∈ filter (λ item, gt (pieValue item) zero = true)
                        ((λ h, {| name := symbol h;
                                  pieValue := holdingValue h |})
                           <$> holdings portfolio)).
      { apply list_elem_of_filter. split; [done|].
        apply list_elem_of_fmap. by exists h. }
      rewrite Hnil in Hin. by apply elem_of_nil in Hin.
  - apply Forall_forall. intros item Hin.
    by apply list_elem_of_filter in Hin as [? _].
  - simpl. apply Qle_refl.
Qed.

(** The sum of finite positive pie values is finite and at least as large
    as each of them. *)
Lemma sum_bounds_items (l : list PieItem) a :
  (0 <= a)%Q →
  Forall (λ item, ∃ q, pieValue item = Fin q ∧ (0 < q)%Q) l →
  ∃ r, foldl (λ sum item, add sum (pieValue item)) (Fin a) l = Fin r ∧
       (a <= r)%Q ∧
       ∀ item q, item ∈ l → pieValue item = Fin q → (q <= r)%Q.
Proof.
  intros Ha Hall. revert a Ha.
  induction Hall as [|item l (q0 & Hq0 & Hpos) _ IH]; intros a Ha.
  - exists a. split; [done|]. split; [apply Qle_refl|].
    intros item q Hin. by apply elem_of_nil in Hin.
  - cbn [foldl]. rewrite Hq0. cbn [add].
    destruct (IH (Qred (a + q0))) as (r & Hr & Hle & Hall').
    { rewrite Qred_correct. lra. }
    rewrite Qred_correct in Hle.
    exists r. split; [done|]. split; [lra|].
    intros item' q Hin Hq. apply elem_of_cons in Hin as [->|Hin].
    + rewrite Hq0 in Hq. injection Hq as <-. lra.
    + by apply (Hall' item').
Qed.

(** X24.  When all the values drawn in the pie are finite, the percentage
    computed for the label of a slice divides by a positive total and is a
    finite number between 0 and 100. *)
Theorem pie_percent_in_range portfolio item :
  Forall (λ item, ∃ q, pieValue item = Fin q) (pieData portfolio) →
  item ∈ pieData portfolio →
  gt (totalValue portfolio) zero = true ∧
  ∃ pc, piePercent (totalValue portfolio) item = Fin pc ∧
        (0 <= pc)%Q ∧ (pc <= 100)%Q.
Proof.
  intros Hfin Hitem.
  assert (Hall : Forall (λ item, ∃ q, pieValue item = Fin q ∧ (0 < q)%Q)
                   (pieData portfolio)).
  { apply Forall_forall. intros it Hit.
    destruct (proj1 (Forall_forall _ _) Hfin it Hit) as [q Hq].
    exists q. split; [done|]. apply gt_zero_Fin. rewrite <- Hq.
    by apply list_elem_of_filter in Hit as [? _]. }
  destruct (sum_bounds_items (pieData portfolio) 0 (Qle_refl 0) Hall)
    as (T & HT & _ & Hbound).
  destruct (proj1 (Forall_forall _ _) Hall item Hitem) as (v & Hv & Hvpos).
  pose proof (Hbound item v Hitem Hv) as HvT.
  assert (HTpos : (0 < T)%Q) by lra.
  assert (HTz : is_zero T = false).
  { apply is_zero_false. intros Heq. rewrite Heq in HTpos.
    by apply (Qlt_irrefl 0). }
  assert (HTeq : totalValue portfolio = Fin T) by exact HT.
  rewrite HTeq. split; [by apply gt_zero_Fin|].
  unfold PortfolioManagerSpec.piePercent. rewrite Hv. unfold div.
  rewrite HTz. cbn [mul hundred]. eexists. split; [reflexivity|].
  rewrite !Qred_correct.
  assert (Hne : ¬ (T == 0)%Q) by (by apply is_zero_false).
  assert (Hdiv : (0 < v / T)%Q).
  { apply Qlt_shift_div_l; [done|]. lra. }
  assert (Hdiv1 : (v / T <= 1)%Q).
  { apply Qle_shift_div_r; [done|]. lra. }
  split; lra.
Qed.

Lemma rowValue_holdingValue total h v :
  holdingValue h = Fin v →
  ∃ v', rowValue (holdingRow total h) = Fin v' ∧ (v' == v)%Q.
Proof.
  unfold PortfolioManagerSpec.holdingValue, PortfolioManager.holdingRow.
  cbn [rowValue]. destruct (decide (symbol h = "CASH")) as [Hc|Hc].
  - rewrite !(bool_decide_eq_true_2 _ Hc). intros ->. cbn [JS.ToNumber].
    eexists. split; [reflexivity|]. rewrite Qred_correct. ring.
  - rewrite !(bool_decide_eq_false_2 _ Hc). intros ->. by exists v.
Qed.

(** X20.  When the value of every holding is a finite, non-negative number,
    the weight shown in every row of the table is a finite number between
    0 and 100. *)
Theorem row_weight_in_range portfolio h :
  (∀ h', h' ∈ holdings portfolio →
         ∃ v, holdingValue h' = Fin v ∧ (0 <= v)%Q) →
  h ∈ holdings portfolio →
  ∃ w, rowWeight (holdingRow (totalValue portfolio) h) = Fin w ∧
       (0 <= w)%Q ∧ (w <= 100)%Q.
Proof.
  intros Hvalues Hh.
  assert (Hall : Forall (λ item, ∃ q, pieValue item = Fin q ∧ (0 < q)%Q)
                   (pieData portfolio)).
  { apply Forall_forall. intros it Hit. rewrite pieData_holdingValue in Hit.
    apply list_elem_of_filter in Hit as [Hpos Hit].
    apply list_elem_of_fmap in Hit as (h' & -> & Hh').
    destruct (Hvalues h' Hh') as (q & Hq & _). simpl in *.
    exists q. split; [done|]. apply gt_zero_Fin. by rewrite <- Hq. }
  destruct (sum_bounds_items (pieData portfolio) 0 (Qle_refl 0) Hall)
    as (T & HT & HT0 & Hbound).
  assert (HTeq : totalValue portfolio = Fin T) by exact HT.
  destruct (Hvalues h Hh) as (v & Hv & Hv0).
  destruct (rowValue_holdingValue (Fin T) h v Hv) as (v' & Hv' & Hvv).
  assert (HvT : (v <= T)%Q).
  { destruct (Qlt_le_dec 0 v) as [Hpos|Hle]; [|lra].
    apply (Hbound {| name := symbol h; pieValue := holdingValue h |} v);
      [|done].
    rewrite pieData_holdingValue. apply list_elem_of_filter.
    split; [simpl; rewrite Hv; by apply gt_zero_Fin|].
    apply list_elem_of_fmap. by exists h. }
  rewrite HTeq.
  assert (Hw : rowWeight (holdingRow (Fin T) h) =
               if is_zero T then zero
               else mul (div (rowValue (holdingRow (Fin T) h)) (Fin T))
                        hundred).
  { unfold PortfolioManager.holdingRow. cbn [rowWeight rowValue ToBoolean].
    by destruct (is_zero T). }
  rewrite Hw, Hv'. destruct (is_zero T) eqn:HTz.
  - exists 0%Q. split; [done|]. split; lra.
  - unfold div. rewrite HTz. cbn [mul hundred].
    eexists. split; [reflexivity|]. rewrite !Qred_correct, Hvv.
    assert (Hne : ¬ (T == 0)%Q) by (by apply is_zero_false).
    assert (HTpos : (0 < T)%Q).
    { destruct (Qlt_le_dec 0 T) as [?|Hle]; [done|].
      exfalso. apply Hne. by apply Qle_antisym. }
    assert (Hdiv : (0 <= v / T)%Q).
    { apply Qle_shift_div_l; [done|]. lra. }
    assert (Hdiv1 : (v / T <= 1)%Q).
    { apply Qle_shift_div_r; [done|]. lra. }
    split; lra.
Qed.

End Props.

End ValuationProps.

(** ** Further properties of [normalizeData] *)

Module NormalizeDataMore.

Import App AppSpec AppFacts NumberFacts StockChartsSpec.

Section Props.

Variable StringToNumber : string -> number.

Abbreviation ToNumber := (JS.ToNumber StringToNumber).
Abbreviation baseValuesFrom := (App.baseValuesFrom StringToNumber).
Abbreviation normalizedValues := (App.normalizedValues StringToNumber).
Abbreviation weightedTotal := (App.weightedTotal StringToNumber).
Abbreviation normalizePoint := (App.normalizePoint StringToNumber).
Abbreviation normalizeData := (App.normalizeData StringToNumber).

(** X21.  Every output point keeps the date of its input point and has a
    numeric [TOTAL]; apart from these two it has an entry exactly for the
    properties whose input value is neither [null] nor [undefined], and
    every entry other than the date is a number. *)
Theorem normalizeData_output_shape first rest portfolio i point :
  (first :: rest) !! i = Some point →
  ∃ out np,
    normalizeData (first :: rest) portfolio = Normal out ∧
    out !! i = Some np ∧
    np !! "date" = Some (get point "date") ∧
    (∃ t, np !! "TOTAL" = Some (VNumber t)) ∧
    (∀ k, k ≠ "date" → k ≠ "TOTAL" →
          (is_Some (np !! k) ↔ valid (get point k) = true)) ∧
    (∀ k v, k ≠ "date" → np !! k = Some v → ∃ n, v = VNumber n).
Proof.
  intros Hi. eexists _, _. split; [apply normalizeData_cons|].
  split; [by apply map_lookup_Some|].
  split; [|split; [|split]].
  - rewrite normalizePoint_lookup_ne by done.
    rewrite normalizedValues_lookup. by rewrite bool_decide_eq_true_2.
  - rewrite normalizePoint_lookup_TOTAL. eauto.
  - intros k Hdate Htotal. rewrite normalizePoint_lookup_ne by done.
    rewrite normalizedValues_lookup, bool_decide_eq_false_2 by done.
    destruct (valid (get point k)); split; try done; eauto.
  - intros k v Hdate Hv.
    destruct (decide (k = "TOTAL")) as [->|Htotal].
    + rewrite normalizePoint_lookup_TOTAL in Hv. injection Hv as <-. eauto.
    + rewrite normalizePoint_lookup_ne in Hv by done.
      rewrite normalizedValues_lookup, bool_decide_eq_false_2 in Hv by done.
      destruct (valid (get point k)); [|done]. injection Hv as <-. eauto.
Qed.

(** A number produced by a multiplication leaves the sum and the product
    formed for a single holding, [0 + n * 1], unchanged. *)
Lemma add_zero_mul_one x y :
  add zero (mul (mul x y) one) = mul x y.
Proof.
  destruct x as [| | |a], y as [| | |b]; cbn [mul]; try done;
    try (destruct (is_zero _); [done|];
         by destruct (is_pos _) || by destruct (is_neg _)).
  cbn [mul one zero add]. f_equal. apply Qred_complete.
  rewrite !Qred_correct. ring.
Qed.

(** The weight of the only holding, [s / (0 + s)], is 1. *)
Lemma single_weight s :
  is_zero s = false → div (Fin s) (add zero (Fin s)) = one.
Proof.
  intros Hs. assert (Hne : ¬ (s == 0)%Q) by (by apply is_zero_false).
  cbn [add zero]. unfold div.
  assert (Hz : is_zero (Qred (0 + s)) = false).
  { apply is_zero_false. rewrite Qred_correct. lra. }
  rewrite Hz. unfold one. f_equal. change 1%Q with (Qred 1).
  apply Qred_complete. rewrite Qred_correct. by field.
Qed.

(** X22.  When the portfolio has a single non-CASH holding, with a finite,
    non-zero number of shares, the [TOTAL] of every output point is the
    normalized value of that instrument at the point, and 0 where the
    instrument has no value. *)
Theorem single_holding_TOTAL_tracks_instrument
    first rest portfolio h s i point :
  nonCash portfolio = [h] → shares h = Fin s → is_zero s = false →
  symbol h ≠ "date" → symbol h ≠ "TOTAL" →
  (first :: rest) !! i = Some point →
  ∃ out np,
    normalizeData (first :: rest) portfolio = Normal out ∧
    out !! i = Some np ∧
    np !! "TOTAL" = Some (default (VNumber zero) (np !! symbol h)).
Proof.
  intros Hnc Hs Hsz Hdate Htotal Hi.
  eexists _, _. split; [apply normalizeData_cons|].
  split; [by apply map_lookup_Some|].
  rewrite normalizePoint_lookup_TOTAL, normalizePoint_lookup_ne by done.
  unfold App.weightedTotal, totalInvestment. rewrite Hnc. cbn [foldl].
  rewrite Hs, (single_weight s Hsz). unfold get at 1 2.
  rewrite normalizedValues_lookup, bool_decide_eq_false_2 by done.
  destruct (valid (get point (symbol h))); [|done].
  cbn [default id not_undefined JS.ToNumber]. by rewrite add_zero_mul_one.
Qed.

End Props.

End NormalizeDataMore.

(** ** The further properties on concrete inputs *)

Module MoreExamples.

Import StockCharts StockChartsSpec PortfolioManager PortfolioManagerSpec.
Import App AppSpec Inputs MoreInputs.

(** Case analysis on the membership in an explicit list. *)
Ltac each_elem H :=
  repeat (apply elem_of_cons in H as [H|H]);
  [.. | by apply elem_of_nil in H].

(** A decidable closed proposition, by evaluation. *)
Ltac by_evaluation := apply (bool_decide_unpack _); vm_compute; exact I.

(** The server turns the closes 10, 0 and [null] into 10, [null] and
    [null]. *)
Example stockData_closesWithZero :
  stockData threeTimestamps closesWithZero =
    [ {| timestamp := Fin 1; close := num 10 |};
      {| timestamp := Fin 2; close := VNull |};
      {| timestamp := Fin 3; close := VNull |} ].
Proof. reflexivity. Qed.

Lemma stockData_close_null_or_truthy_witness :
  {| timestamp := Fin 2; close := VNull |}
    ∈ stockData threeTimestamps closesWithZero ∧
  ((close {| timestamp := Fin 2; close := VNull |} = VNull ∨
    ToBoolean (close {| timestamp := Fin 2; close := VNull |}) = true) ∧
   close {| timestamp := Fin 2; close := VNull |} ≠ VUndefined ∧
   close {| timestamp := Fin 2; close := VNull |} ≠ VNumber NaN ∧
   ∀ q, close {| timestamp := Fin 2; close := VNull |} = VNumber (Fin q) →
        is_zero q = false).
Proof.
  assert (H1 : {| timestamp := Fin 2; close := VNull |}
               ∈ stockData threeTimestamps closesWithZero)
    by (apply (list_elem_of_lookup_2 _ 1); reflexivity).
  split; [assumption|].
  exact (ServerProps.stockData_close_null_or_truthy threeTimestamps
           closesWithZero _ H1).
Defined.

Lemma stockData_zero_close_is_null_witness :
  threeTimestamps !! 1%nat = Some (Fin 2) ∧
  closesWithZero !! 1%nat = Some (VNumber (Fin 0)) ∧
  stockData threeTimestamps closesWithZero !! 1%nat =
    Some {| timestamp := Fin 2;
            close := if is_zero 0 then VNull else VNumber (Fin 0) |}.
Proof.
  assert (H1 : threeTimestamps !! 1%nat = Some (Fin 2)) by reflexivity.
  assert (H2 : closesWithZero !! 1%nat = Some (VNumber (Fin 0)))
    by reflexivity.
  do 2 (split; [assumption|]).
  exact (ServerProps.stockData_zero_close_is_null threeTimestamps
           closesWithZero 1 (Fin 2) 0 H1 H2).
Defined.

(** The chart of [twoQueries]: VGS has no entry at the third index. *)
Example chartData_twoQueries :
  chartData sameLabel twoQueries = Normal (Some chartVASVGS) ∧
  (λ p : gmap string value, (p !! "VAS", p !! "VGS")) <$> chartVASVGS =
    [ (Some (num 10), Some (num 50));
      (Some VNull, Some (num 25));
      (Some (num 12), None) ].
Proof. split; [reflexivity | by vm_compute]. Qed.

Lemma chartVASVGS_third : chartVASVGS !! 2%nat = Some thirdPoint.
Proof. reflexivity. Defined.

Lemma chartVASVGS_first : chartVASVGS !! 0%nat = Some firstPoint.
Proof. reflexivity. Defined.

Lemma chartData_keys_in_first_witness :
  chartData sameLabel twoQueries = Normal (Some chartVASVGS) ∧
  chartVASVGS !! 2%nat = Some thirdPoint ∧
  is_Some (thirdPoint !! "VAS") ∧
  ∃ first, head chartVASVGS = Some first ∧ is_Some (first !! "VAS").
Proof.
  assert (H1 : chartData sameLabel twoQueries = Normal (Some chartVASVGS))
    by reflexivity.
  assert (H3 : is_Some (thirdPoint !! "VAS"))
    by (exists (num 12); vm_compute; reflexivity).
  split; [assumption|]. split; [exact chartVASVGS_third|].
  split; [assumption|].
  exact (StockChartsProps.chartData_keys_in_first sameLabel twoQueries
           chartVASVGS 2 thirdPoint "VAS" H1 chartVASVGS_third H3).
Defined.

Lemma twoQueries_NoDup_symbols : NoDup (symbolOf <$> twoQueries.*1).
Proof. by_evaluation. Defined.

Lemma twoQueries_NoDup : NoDup twoQueries.*1.
Proof. by_evaluation. Defined.

Lemma twoQueries_no_date etf query :
  (etf, query) ∈ twoQueries → symbolOf etf ≠ "date".
Proof.
  intros Hin. each_elem Hin; injection Hin as -> _; vm_compute; discriminate.
Defined.

Lemma chartData_entries_witness :
  head twoQueries = Some ("VAS.AX", queryOf (Some dataVASq)) ∧
  data (queryOf (Some dataVASq)) = Some dataVASq ∧
  NoDup (symbolOf <$> twoQueries.*1) ∧
  (∀ etf query, (etf, query) ∈ twoQueries → symbolOf etf ≠ "date") ∧
  ∃ points,
    chartData sameLabel twoQueries = Normal (Some points) ∧
    length points = length dataVASq ∧
    ∀ i item, dataVASq !! i = Some item →
      ∃ p, points !! i = Some p ∧
           p !! "date" = Some (VString (sameLabel (timestamp item))) ∧
           ∀ etf query, (etf, query) ∈ twoQueries →
                        p !! symbolOf etf = close <$> entryAt query i.
Proof.
  assert (H1 : head twoQueries = Some ("VAS.AX", queryOf (Some dataVASq)))
    by reflexivity.
  assert (H2 : data (queryOf (Some dataVASq)) = Some dataVASq)
    by reflexivity.
  do 2 (split; [assumption|]). split; [exact twoQueries_NoDup_symbols|].
  split; [exact twoQueries_no_date|].
  exact (StockChartsProps.chartData_entries sameLabel twoQueries "VAS.AX"
           (queryOf (Some dataVASq)) dataVASq H1 H2
           twoQueries_NoDup_symbols twoQueries_no_date).
Defined.

Lemma thirdPoint_valid_VAS : valid (get thirdPoint "VAS") = true.
Proof. vm_compute; reflexivity. Defined.

Lemma chart_series_has_base_witness :
  chartData sameLabel twoQueries = Normal (Some chartVASVGS) ∧
  chartVASVGS !! 2%nat = Some thirdPoint ∧
  "VAS" ≠ "date" ∧ valid (get thirdPoint "VAS") = true ∧
  ∃ first, head chartVASVGS = Some first ∧
           is_Some (App.baseValuesFrom noNumber first chartVASVGS !! "VAS").
Proof.
  assert (H1 : chartData sameLabel twoQueries = Normal (Some chartVASVGS))
    by reflexivity.
  assert (H3 : "VAS" ≠ "date") by discriminate.
  split; [assumption|]. split; [exact chartVASVGS_third|].
  split; [assumption|]. split; [exact thirdPoint_valid_VAS|].
  exact (StockChartsProps.chart_series_has_base noNumber sameLabel twoQueries
           chartVASVGS 2 thirdPoint "VAS" H1 chartVASVGS_third H3
           thirdPoint_valid_VAS).
Defined.

Lemma twoQueries_server : ServerQueries twoQueries.
Proof.
  intros etf query d entry Hin Hd Hentry.
  each_elem Hin; injection Hin as -> ->; injection Hd as <-;
    each_elem Hentry; subst entry;
    first [ by left | right; eexists; split; reflexivity ].
Defined.

Lemma firstPoint_valid_key : valid (get firstPoint "VAS") = true.
Proof. vm_compute; reflexivity. Defined.

(** The first close of VAS is at index 0. *)
Lemma chartVASVGS_first_valid :
  FirstValidAt "VAS" chartVASVGS 0 (VNumber (Fin 10)).
Proof.
  split; [exists firstPoint; split; [reflexivity | by vm_compute]|].
  split; [done|]. intros j q Hj. lia.
Defined.

(** [server_chart_never_NaN] on the chart of [twoQueries], at the first
    point, where VAS has its first close. *)
Lemma server_chart_never_NaN_witness :
  ServerQueries twoQueries ∧
  chartData sameLabel twoQueries = Normal (Some chartVASVGS) ∧
  chartVASVGS !! 0%nat = Some firstPoint ∧
  "VAS" ≠ "date" ∧ "VAS" ≠ "TOTAL" ∧
  valid (get firstPoint "VAS") = true ∧
  FirstValidAt "VAS" chartVASVGS 0 (VNumber (Fin 10)) ∧
  ∃ out np,
    App.normalizeData noNumber chartVASVGS portfolioAB = Normal out ∧
    out !! 0%nat = Some np ∧
    (valid (get firstPoint "VAS") = false → np !! "VAS" = None) ∧
    (valid (get firstPoint "VAS") = true →
       ∃ n, np !! "VAS" = Some (VNumber n) ∧ n ≠ NaN) ∧
    (∀ v, FirstValidAt "VAS" chartVASVGS 0 v →
          np !! "VAS" = Some (VNumber (Fin 100))).
Proof.
  assert (H2 : chartData sameLabel twoQueries = Normal (Some chartVASVGS))
    by reflexivity.
  assert (H4 : "VAS" ≠ "date") by discriminate.
  assert (H5 : "VAS" ≠ "TOTAL") by discriminate.
  split; [exact twoQueries_server|]. split; [assumption|].
  split; [exact chartVASVGS_first|]. do 2 (split; [assumption|]).
  split; [exact firstPoint_valid_key|].
  split; [exact chartVASVGS_first_valid|].
  exact (StockChartsProps.server_chart_never_NaN noNumber sameLabel
           twoQueries chartVASVGS portfolioAB 0 firstPoint "VAS"
           twoQueries_server H2 chartVASVGS_first H4 H5).
Defined.

(** Normalized, the closes 10, [null], 12 of VAS give 100, no entry and
    120. *)
Example normalizeData_chartVASVGS :
  ∃ p0 p1 p2,
    App.normalizeData noNumber chartVASVGS portfolioAB
      = Normal [p0; p1; p2] ∧
    (p0 !! "VAS", p1 !! "VAS", p2 !! "VAS") =
      (Some (num 100), None, Some (num 120)).
Proof. eexists _, _, _. split; [reflexivity | by vm_compute]. Qed.

Lemma render_needs_first_query_data_witness :
  existsb (λ q, isLoading q.2) firstQueryEmpty = false ∧
  existsb (λ q, isError q.2) firstQueryEmpty = false ∧
  render noNumber sameLabel firstQueryEmpty portfolioAB = Throw TypeError.
Proof.
  assert (H1 : existsb (λ q, isLoading q.2) firstQueryEmpty = false)
    by reflexivity.
  assert (H2 : existsb (λ q, isError q.2) firstQueryEmpty = false)
    by reflexivity.
  do 2 (split; [assumption|]).
  exact (StockChartsProps.render_needs_first_query_data noNumber sameLabel
           firstQueryEmpty portfolioAB H1 H2).
Defined.

Lemma currentPrices_last_close_witness :
  NoDup twoQueries.*1 ∧
  (∀ etf query, (etf, query) ∈ twoQueries →
     currentPrices twoQueries !! etf = close <$> lastEntry query) ∧
  (∀ k, k ∉ twoQueries.*1 → currentPrices twoQueries !! k = None).
Proof.
  split; [exact twoQueries_NoDup|].
  exact (StockChartsProps.currentPrices_last_close twoQueries
           twoQueries_NoDup).
Defined.

(** The current prices of [twoQueries] are the last closes 12 and 25. *)
Example currentPrices_twoQueries :
  (currentPrices twoQueries !! "VAS.AX", currentPrices twoQueries !! "VGS.AX",
   currentPrices twoQueries !! "VAS") = (Some (num 12), Some (num 25), None).
Proof. by vm_compute. Qed.

Lemma dotFree_VAS : dotFree "VAS".
Proof. repeat split; discriminate. Defined.

Lemma symbolOf_strips_suffix_witness :
  dotFree "VAS" ∧
  symbolOf ("VAS" +:+ ".AX") = "VAS" ∧
  symbolOf ("VAS" +:+ ".AX") +:+ ".AX" = "VAS" +:+ ".AX" ∧
  symbolOf "VAS" = "VAS".
Proof.
  split; [exact dotFree_VAS|].
  exact (StockChartsProps.symbolOf_strips_suffix "VAS" dotFree_VAS).
Defined.

(** Only the first occurrence of [.AX] is removed. *)
Example String_replace_first_only :
  String_replace ".AX" "" "A.AXB.AX" = "AB.AX" ∧
  (String_replace ".AX" "" <$> ETF_LIST) =
    ["VAS"; "VGS"; "VGAD"; "VAE"; "VGE"; "IVE"; "DJRE"; "GOLD"].
Proof. by vm_compute. Qed.

Lemma holding_price_is_last_close_witness :
  NoDup twoQueries.*1 ∧
  ("VAS.AX", queryOf (Some dataVASq)) ∈ twoQueries ∧
  symbol (holding "VAS" 1) = symbolOf "VAS.AX" ∧
  symbolOf "VAS.AX" +:+ ".AX" = "VAS.AX" ∧
  symbolOf "VAS.AX" ≠ "CASH" ∧
  rowPrice (holdingRow noNumber (currentPrices twoQueries) (Fin 100)
              (holding "VAS" 1)) =
    match lastEntry (queryOf (Some dataVASq)) with
    | Some entry => or_else (close entry) (VNumber zero)
    | None => VNumber zero
    end.
Proof.
  assert (H2 : ("VAS.AX", queryOf (Some dataVASq)) ∈ twoQueries)
    by apply list_elem_of_here.
  assert (H3 : symbol (holding "VAS" 1) = symbolOf "VAS.AX") by reflexivity.
  assert (H4 : symbolOf "VAS.AX" +:+ ".AX" = "VAS.AX") by reflexivity.
  assert (H5 : symbolOf "VAS.AX" ≠ "CASH") by (vm_compute; discriminate).
  split; [exact twoQueries_NoDup|]. do 4 (split; [assumption|]).
  exact (StockChartsProps.holding_price_is_last_close noNumber twoQueries
           "VAS.AX" (queryOf (Some dataVASq)) (Fin 100) (holding "VAS" 1)
           twoQueries_NoDup H2 H3 H4 H5).
Defined.

Lemma yDomain_NaN_poisons_witness :
  pointWithNaN ∈ [pointWithNaN] ∧
  pointWithNaN !! "TOTAL" = Some (VNumber NaN) ∧ "TOTAL" ≠ "date" ∧
  (min (yDomain [pointWithNaN]) = NaN ∧ max (yDomain [pointWithNaN]) = NaN ∧
   Math_floor (min (yDomain [pointWithNaN])) = NaN ∧
   Math_ceil (max (yDomain [pointWithNaN])) = NaN).
Proof.
  assert (H1 : pointWithNaN ∈ [pointWithNaN]) by apply list_elem_of_here.
  assert (H2 : pointWithNaN !! "TOTAL" = Some (VNumber NaN))
    by (vm_compute; reflexivity).
  assert (H3 : "TOTAL" ≠ "date") by discriminate.
  do 3 (split; [assumption|]).
  exact (YDomainProps.yDomain_NaN_poisons [pointWithNaN] pointWithNaN "TOTAL"
           H1 H2 H3).
Defined.

Lemma finiteData_pointFinite : finiteData [pointFinite].
Proof.
  intros p k n Hp Hk Hdate. each_elem Hp. subst p.
  unfold pointFinite, chartPoint in Hk. simpl in Hk.
  rewrite lookup_insert in Hk. case_decide; [injection Hk as <-; eauto|].
  rewrite lookup_insert in Hk. case_decide; [congruence|].
  rewrite lookup_insert in Hk. case_decide; [injection Hk as <-; eauto|].
  by rewrite lookup_empty in Hk.
Defined.

Lemma yDomain_bounds_witness :
  finiteData [pointFinite] ∧ pointFinite ∈ [pointFinite] ∧
  pointFinite !! "VAS" = Some (VNumber (Fin (199 # 2))) ∧ "VAS" ≠ "date" ∧
  ∃ lo hi : Z,
    Math_floor (min (yDomain [pointFinite])) = Fin (inject_Z lo) ∧
    Math_ceil (max (yDomain [pointFinite])) = Fin (inject_Z hi) ∧
    (inject_Z lo <= 199 # 2)%Q ∧ (199 # 2 <= inject_Z hi)%Q.
Proof.
  assert (H2 : pointFinite ∈ [pointFinite]) by apply list_elem_of_here.
  assert (H3 : pointFinite !! "VAS" = Some (VNumber (Fin (199 # 2))))
    by (vm_compute; reflexivity).
  assert (H4 : "VAS" ≠ "date") by discriminate.
  split; [exact finiteData_pointFinite|]. do 3 (split; [assumption|]).
  exact (YDomainProps.yDomain_bounds [pointFinite] pointFinite "VAS" (199 # 2)
           finiteData_pointFinite H2 H3 H4).
Defined.

(** With the numbers 99.5 and 125.5 the axis runs from 99 to 126. *)
Example yDomain_pointFinite :
  (Math_floor (min (yDomain [pointFinite])),
   Math_ceil (max (yDomain [pointFinite]))) = (Fin 99, Fin 126).
Proof. by vm_compute. Qed.

Lemma firstPoint_valid_VAS : valid (get firstPoint (symbolOf "VAS.AX")) = true.
Proof. vm_compute; reflexivity. Defined.

Lemma first_load_axis_is_NaN_witness :
  existsb (λ q, isLoading q.2) twoQueries = false ∧
  existsb (λ q, isError q.2) twoQueries = false ∧
  chartData sameLabel twoQueries = Normal (Some chartVASVGS) ∧
  chartVASVGS !! 0%nat = Some firstPoint ∧
  ("VAS.AX", queryOf (Some dataVASq)) ∈ twoQueries ∧
  valid (get firstPoint (symbolOf "VAS.AX")) = true ∧
  symbolOf "VAS.AX" ≠ "CASH" ∧ symbolOf "VAS.AX" ≠ "date" ∧
  ∃ normalized prices np,
    render noNumber sameLabel twoQueries
      (initialPortfolio twoQueries.*1 Inputs.now) =
      Normal (ChartsView (Some chartVASVGS) normalized prices NaN NaN) ∧
    normalized !! 0%nat = Some np ∧ np !! "TOTAL" = Some (VNumber NaN).
Proof.
  assert (H1 : existsb (λ q, isLoading q.2) twoQueries = false)
    by reflexivity.
  assert (H2 : existsb (λ q, isError q.2) twoQueries = false) by reflexivity.
  assert (H3 : chartData sameLabel twoQueries = Normal (Some chartVASVGS))
    by reflexivity.
  assert (H5 : ("VAS.AX", queryOf (Some dataVASq)) ∈ twoQueries)
    by apply list_elem_of_here.
  assert (H7 : symbolOf "VAS.AX" ≠ "CASH") by (vm_compute; discriminate).
  assert (H8 : symbolOf "VAS.AX" ≠ "date") by (vm_compute; discriminate).
  do 3 (split; [assumption|]). split; [exact chartVASVGS_first|].
  split; [assumption|]. split; [exact firstPoint_valid_VAS|].
  do 2 (split; [assumption|]).
  exact (InitialPortfolioProps.first_load_axis_is_NaN noNumber sameLabel
           twoQueries Inputs.now chartVASVGS 0 firstPoint "VAS.AX"
           (queryOf (Some dataVASq)) H1 H2 H3 chartVASVGS_first H5
           firstPoint_valid_VAS H7 H8).
Defined.

Lemma handleSharesChange_commutes_witness :
  "A" ≠ "B" ∧
  ∃ a b,
    handleSharesChange Inputs.now "A" (Fin 2) portfolioAB = Normal a ∧
    handleSharesChange Inputs.now "B" (Fin 3) portfolioAB = Normal b ∧
    handleSharesChange Inputs.now "B" (Fin 3) a =
      handleSharesChange Inputs.now "A" (Fin 2) b.
Proof.
  assert (H1 : "A" ≠ "B") by discriminate.
  split; [assumption|].
  exact (LedgerProps.handleSharesChange_commutes Inputs.now "A" "B" (Fin 2)
           (Fin 3) portfolioAB H1).
Defined.

Lemma NonNegShares_holding sym q :
  Qle_bool 0 q = true → NonNegShares (holding sym q).
Proof. intros H. exists q. split; [done|]. by apply Qle_bool_iff. Defined.

Lemma portfolioAB_nonneg : Forall NonNegShares (holdings portfolioAB).
Proof. repeat constructor; by apply NonNegShares_holding. Defined.

Lemma handleSharesChange_keeps_shares_nonneg_witness :
  Forall NonNegShares (holdings portfolioAB) ∧
  ∃ next,
    handleSharesChange Inputs.now "A" (Fin (-5)) portfolioAB = Normal next ∧
    Forall NonNegShares (holdings next).
Proof.
  split; [exact portfolioAB_nonneg|].
  exact (LedgerProps.handleSharesChange_keeps_shares_nonneg Inputs.now "A"
           (-5) portfolioAB portfolioAB_nonneg).
Defined.

Lemma portfolioA1B3_values h :
  h ∈ holdings portfolioA1B3 →
  ∃ v, holdingValue noNumber pricesAB h = Fin v ∧ (0 <= v)%Q.
Proof.
  intros Hin. each_elem Hin; subst h.
  - exists 50%Q. split; [by vm_compute | by apply Qle_bool_iff].
  - exists 30%Q. split; [by vm_compute | by apply Qle_bool_iff].
  - exists 0%Q. split; [by vm_compute | by apply Qle_bool_iff].
Defined.

Lemma row_weight_in_range_witness :
  (∀ h, h ∈ holdings portfolioA1B3 →
        ∃ v, holdingValue noNumber pricesAB h = Fin v ∧ (0 <= v)%Q) ∧
  holding "B" 3 ∈ holdings portfolioA1B3 ∧
  ∃ w, rowWeight (holdingRow noNumber pricesAB
                    (totalValue noNumber pricesAB portfolioA1B3)
                    (holding "B" 3)) = Fin w ∧
       (0 <= w)%Q ∧ (w <= 100)%Q.
Proof.
  assert (H2 : holding "B" 3 ∈ holdings portfolioA1B3)
    by (apply list_elem_of_further, list_elem_of_here).
  split; [exact portfolioA1B3_values|]. split; [assumption|].
  exact (ValuationProps.row_weight_in_range noNumber pricesAB portfolioA1B3
           (holding "B" 3) portfolioA1B3_values H2).
Defined.

(** One share of A at 50 and three of B at 10: the weights are 62.5 and
    37.5, and 0 for the empty cash balance. *)
Example holdingRows_portfolioA1B3 :
  rowWeight <$> holdingRows noNumber pricesAB portfolioA1B3 =
    [Fin (125 # 2); Fin (75 # 2); Fin 0].
Proof. by vm_compute. Qed.

Lemma normalizeData_output_shape_witness :
  (janAB :: [febAB]) !! 1%nat = Some febAB ∧
  ∃ out np,
    App.normalizeData noNumber (janAB :: [febAB]) portfolioAB = Normal out ∧
    out !! 1%nat = Some np ∧
    np !! "date" = Some (get febAB "date") ∧
    (∃ t, np !! "TOTAL" = Some (VNumber t)) ∧
    (∀ k, k ≠ "date" → k ≠ "TOTAL" →
          (is_Some (np !! k) ↔ valid (get febAB k) = true)) ∧
    (∀ k v, k ≠ "date" → np !! k = Some v → ∃ n, v = VNumber n).
Proof.
  assert (H1 : (janAB :: [febAB]) !! 1%nat = Some febAB) by reflexivity.
  split; [assumption|].
  exact (NormalizeDataMore.normalizeData_output_shape noNumber janAB [febAB]
           portfolioAB 1 febAB H1).
Defined.

Lemma single_holding_TOTAL_tracks_instrument_witness :
  nonCash portfolioACash = [holding "A" 1] ∧
  shares (holding "A" 1) = Fin 1 ∧ is_zero 1 = false ∧
  symbol (holding "A" 1) ≠ "date" ∧ symbol (holding "A" 1) ≠ "TOTAL" ∧
  (janAB :: [febAB]) !! 1%nat = Some febAB ∧
  ∃ out np,
    App.normalizeData noNumber (janAB :: [febAB]) portfolioACash
      = Normal out ∧
    out !! 1%nat = Some np ∧
    np !! "TOTAL" = Some (default (VNumber zero)
                            (np !! symbol (holding "A" 1))).
Proof.
  assert (H1 : nonCash portfolioACash = [holding "A" 1])
    by (vm_compute; reflexivity).
  assert (H2 : shares (holding "A" 1) = Fin 1) by reflexivity.
  assert (H3 : is_zero 1 = false) by reflexivity.
  assert (H4 : symbol (holding "A" 1) ≠ "date") by discriminate.
  assert (H5 : symbol (holding "A" 1) ≠ "TOTAL") by discriminate.
  assert (H6 : (janAB :: [febAB]) !! 1%nat = Some febAB) by reflexivity.
  do 6 (split; [assumption|]).
  exact (NormalizeDataMore.single_holding_TOTAL_tracks_instrument noNumber
           janAB [febAB] portfolioACash (holding "A" 1) 1 1 febAB
           H1 H2 H3 H4 H5 H6).
Defined.

(** With the single holding A the total of the second point is the
    normalized value of A, 200. *)
Example normalizeData_portfolioACash :
  ∃ p0 p1,
    App.normalizeData noNumber dataAB portfolioACash = Normal [p0; p1] ∧
    (p1 !! "A", p1 !! "TOTAL") = (Some (num 200), Some (num 200)).
Proof. eexists _, _. split; [reflexivity | by vm_compute]. Qed.

(** With one share of A and three of B the total of the second point is
    (200 + 3 * 50) / 4. *)
Example normalizeData_portfolioA1B3 :
  ∃ p0 p1,
    App.normalizeData noNumber dataAB portfolioA1B3 = Normal [p0; p1] ∧
    (p0 !! "TOTAL", p1 !! "TOTAL") = (Some (num 100), Some (num (175 # 2))).
Proof. eexists _, _. split; [reflexivity | by vm_compute]. Qed.

Lemma pieData_portfolioA1B3 :
  pieData noNumber pricesAB portfolioA1B3 =
    [ {| name := "A"; pieValue := Fin 50 |};
      {| name := "B"; pieValue := Fin 30 |} ].
Proof. vm_compute; reflexivity. Defined.

Lemma pieData_portfolioA1B3_finite :
  Forall (λ item, ∃ q, pieValue item = Fin q)
    (pieData noNumber pricesAB portfolioA1B3).
Proof. rewrite pieData_portfolioA1B3. repeat constructor; by eexists. Defined.

Lemma pie_percent_in_range_witness :
  Forall (λ item, ∃ q, pieValue item = Fin q)
    (pieData noNumber pricesAB portfolioA1B3) ∧
  {| name := "A"; pieValue := Fin 50 |}
    ∈ pieData noNumber pricesAB portfolioA1B3 ∧
  gt (totalValue noNumber pricesAB portfolioA1B3) zero = true ∧
  ∃ pc, piePercent (totalValue noNumber pricesAB portfolioA1B3)
          {| name := "A"; pieValue := Fin 50 |} = Fin pc ∧
        (0 <= pc)%Q ∧ (pc <= 100)%Q.
Proof.
  assert (H2 : {| name := "A"; pieValue := Fin 50 |}
               ∈ pieData noNumber pricesAB portfolioA1B3)
    by (rewrite pieData_portfolioA1B3; apply list_elem_of_here).
  split; [exact pieData_portfolioA1B3_finite|]. split; [assumption|].
  exact (ValuationProps.pie_percent_in_range noNumber pricesAB portfolioA1B3
           {| name := "A"; pieValue := Fin 50 |}
           pieData_portfolioA1B3_finite H2).
Defined.

End MoreExamples.
